(** * multiagent1.py: the agent pipeline, its sandbox gate and its delivery

    A shallow embedding of [src/multiagent1.py].  The module talks to four
    outside services (the group-chat orchestrator, the Docker daemon, the
    GitHub API and an SMTP server).  Their answers are not computed by the
    program, so one run is modelled against a [World]: a record holding
    what each service answers when it is called.  Every function of the
    module becomes a computation that returns the ordered list of calls it
    made together with either its return value or the exception that left
    it.

    Left out: the calls of [logger], which change nothing that is
    observed here; and exceptions outside [Exception] (a keyboard
    interrupt, a cancelled task), which no [except Exception] of the
    module is meant to catch.  An [await] is a plain call: the module
    awaits one step at a time. *)

From Stdlib Require Import String Ascii List Bool Arith Lia.
Import ListNotations.
Open Scope string_scope.

(** ** Python strings *)

(** [needle in hay] on Python [str]: [needle] occurs as a contiguous,
    case-sensitive run of characters somewhere in [hay]. *)
Fixpoint str_in (needle hay : string) : bool :=
  if prefix needle hay then true
  else match hay with
       | EmptyString => false
       | String _ rest => str_in needle rest
       end.

(** Truthiness of a [str]: only the empty string is falsy. *)
Definition truthy (s : string) : bool :=
  match s with EmptyString => false | String _ _ => true end.

(** [os.path.join(a, b)] on POSIX for a relative [b]. *)
Fixpoint ends_with_slash (a : string) : bool :=
  match a with
  | EmptyString => false
  | String c EmptyString => Ascii.eqb c "/"%char
  | String _ rest => ends_with_slash rest
  end.

Definition os_path_join (a b : string) : string :=
  match a with
  | EmptyString => b
  | _ => if ends_with_slash a then a ++ b else a ++ "/" ++ b
  end.

(** ** Data *)

(** The five participants of [group_chat], in their declared order. *)
Inductive RoleTag := Planner | Writer | Sanitizer | Reviewer | Notifier.

Definition RoleTag_eqb (a b : RoleTag) : bool :=
  match a, b with
  | Planner, Planner | Writer, Writer | Sanitizer, Sanitizer
  | Reviewer, Reviewer | Notifier, Notifier => true
  | _, _ => false
  end.

Definition participants : list RoleTag :=
  [Planner; Writer; Sanitizer; Reviewer; Notifier].

(** The message object returned by [orchestrator.step]: who spoke and its
    [.content]. *)
Record Turn := mkTurn { role : RoleTag; content : string }.

(** What [orchestrator.step] is handed: the chat-history string on the
    first call, the previous message object afterwards. *)
Inductive step_input :=
| InText (s : string)
| InMessage (t : Turn).

(** A call either returns or raises; an exception is kept as [str(e)]. *)
Inductive result (A : Type) :=
| Ok (a : A)
| Raise (e : string).
Arguments Ok {A} a.
Arguments Raise {A} e.

Definition is_ok {A} (r : result A) : bool :=
  match r with Ok _ => true | Raise _ => false end.

(** The calls that leave the process, with the arguments the source gives
    them. *)
Inductive call :=
| orchestrator_step (i : nat) (input : step_input)
| docker_from_env
| TemporaryDirectory
| write_script (path code : string)
| containers_run (image command mount bind mode working_dir : string)
    (detach network_disabled : bool) (mem_limit : string)
    (security_opt : list string)
| container_logs (stdout stderr : bool)
| container_remove (force : bool)
| bytes_decode
| tempdir_cleanup (tempdir : string)
| Github (token : option string)
| get_repo (name : string)
| get_branch (name : string)
| create_git_ref (ref sha : string)
| create_file (path message content branch : string)
| create_pull (title body head base : string)
| SMTP_SSL (host : option string) (port : nat)
| smtp_login (user pass : option string)
| send_message (subject body : string) (from : option string) (to : string)
| smtp_quit.

(** One entry of a run's trace.  [Called c ok] is an outside call and
    whether it returned ([true]) or raised ([false]); [ProcessExited] is
    the sandboxed process ending on its own; the three [Enter_] entries
    mark a helper of the module being entered, with its arguments. *)
Inductive event :=
| Called (c : call) (ok : bool)
| ProcessExited
| Enter_execute_code_in_docker (code : string)
| Enter_create_github_pr (file_path content commit_msg : string)
| Enter_send_email (subject body recipient : string).

Definition trace := list event.

(** ** Computations: a trace and a result *)

Definition M (A : Type) : Type := (trace * result A)%type.

Definition ret {A} (a : A) : M A := ([], Ok a).

Definition bind {A B} (m : M A) (f : A -> M B) : M B :=
  match m with
  | (t, Ok a) => let (t', r) := f a in ((t ++ t')%list, r)
  | (t, Raise e) => (t, Raise e)
  end.

Notation "x <- m ;; k" := (bind m (fun x => k))
  (at level 61, m at next level, right associativity).
Notation "m ;;; k" := (bind m (fun _ => k))
  (at level 61, right associativity).

Definition emit (e : event) : M unit := ([e], Ok tt).

(** An outside call: it is recorded, and its answer is the world's. *)
Definition outside {A} (c : call) (answer : result A) : M A :=
  ([Called c (is_ok answer)], answer).

(** [try: m  except Exception as e: h e]. *)
Definition try_except {A} (m : M A) (h : string -> M A) : M A :=
  match m with
  | (t, Ok a) => (t, Ok a)
  | (t, Raise e) => let (t', r) := h e in ((t ++ t')%list, r)
  end.

(** The exit half of a [with] block: [cleanup] runs whether [body]
    returned or raised; an exception of [cleanup] replaces the outcome of
    [body]. *)
Definition with_exit {A} (body : M A) (cleanup : M unit) : M A :=
  let (t, r) := body in
  match cleanup with
  | (t', Ok _) => ((t ++ t')%list, r)
  | (t', Raise e) => ((t ++ t')%list, Raise e)
  end.

(** [for _ in range(n): a = body(a)], the iterations numbered from [i]. *)
Fixpoint for_range {A} (n i : nat) (body : nat -> A -> M A) (a : A) : M A :=
  match n with
  | O => ret a
  | S n' => a' <- body i a ;; for_range n' (S i) body a'
  end.

(** ** The world of one run *)

Record World := mkWorld {
  (* configuration read with os.getenv at import time *)
  SMTP_HOST : option string;
  SMTP_USER : option string;
  SMTP_PASS : option string;
  GITHUB_TOKEN : option string;
  (* the group-chat orchestrator: the answer to the i-th step *)
  w_step : nat -> step_input -> result Turn;
  (* Docker and the temporary directory *)
  w_from_env : result unit;
  w_mkdtemp : result string;
  w_write : string -> string -> result unit;
  w_run : string -> result unit;
  w_exited_before_logs : bool;
  w_logs : result string;
  w_remove : result unit;
  w_decode : string -> result string;
  w_cleanup : string -> result unit;
  (* GitHub *)
  w_Github : result unit;
  w_get_repo : string -> result unit;
  w_get_branch : string -> result string;
  w_create_git_ref : string -> string -> result unit;
  w_create_file : string -> string -> string -> string -> result unit;
  w_create_pull : string -> string -> result string;
  (* SMTP *)
  w_connect : result unit;
  w_login : result unit;
  w_send : string -> string -> string -> result unit;
  w_quit : result unit
}.

Definition GITHUB_REPO : string := "yourusername/yourrepo".

(** The four exits of [run_agents].  In Python all four return [None];
    they differ by the statement that is left: the [return] of line 155
    ([NoArtifact]), the [return] of line 163 ([Aborted]), the end of the
    function after [send_email] ([Delivered]) and after the warning of
    line 170 ([DeliveryFailed]). *)
Inductive RunOutcome :=
| Delivered (reference : string)
| Aborted
| NoArtifact
| DeliveryFailed.

Inductive GateDecision := PROCEED | ABORT.

(** The test of line 161, [if "SAFE" not in output: return]. *)
Definition review_gate (output : string) : GateDecision :=
  if negb (str_in "SAFE" output) then ABORT else PROCEED.

(** ** The module's functions *)

Section Program.

Variable w : World.

(** [send_email], lines 39-51. *)
Definition send_email (subject body recipient : string) : M unit :=
  emit (Enter_send_email subject body recipient) ;;;
  try_except
    (outside (SMTP_SSL (SMTP_HOST w) 465) (w_connect w) ;;;
     with_exit
       (outside (smtp_login (SMTP_USER w) (SMTP_PASS w)) (w_login w) ;;;
        outside (send_message subject body (SMTP_USER w) recipient)
                (w_send w subject body recipient))
       (outside smtp_quit (w_quit w)))
    (fun _ => ret tt).

(** Between [containers.run(detach=True)] and [container.logs] the
    program does not wait; whether the sandboxed process has ended by
    then is the world's affair. *)
Definition process_window : M unit :=
  if w_exited_before_logs w then emit ProcessExited else ret tt.

(** The [try] block of [execute_code_in_docker], lines 57-75. *)
Definition sandbox_try (code : string) : M string :=
  tempdir <- outside TemporaryDirectory (w_mkdtemp w) ;;
  with_exit
    (let code_file := os_path_join tempdir "script.py" in
     outside (write_script code_file code) (w_write w code_file code) ;;;
     outside (containers_run "python:3.10" "python script.py"
                tempdir "/code" "ro" "/code" true true "128m"
                ["no-new-privileges"])
             (w_run w tempdir) ;;;
     process_window ;;;
     result <- outside (container_logs true true) (w_logs w) ;;
     outside (container_remove true) (w_remove w) ;;;
     outside bytes_decode (w_decode w result))
    (outside (tempdir_cleanup tempdir) (w_cleanup w tempdir)).

(** [execute_code_in_docker], lines 54-78. *)
Definition execute_code_in_docker (code : string) : M string :=
  emit (Enter_execute_code_in_docker code) ;;;
  outside docker_from_env (w_from_env w) ;;;
  try_except (sandbox_try code)
             (fun e => ret ("Execution failed: " ++ e)).

(** [create_github_pr], lines 81-99. *)
Definition create_github_pr (file_path content commit_msg : string)
  : M (option string) :=
  emit (Enter_create_github_pr file_path content commit_msg) ;;;
  try_except
    (outside (Github (GITHUB_TOKEN w)) (w_Github w) ;;;
     outside (get_repo GITHUB_REPO) (w_get_repo w GITHUB_REPO) ;;;
     sha <- outside (get_branch "main") (w_get_branch w "main") ;;
     let new_branch_name := "auto/feature-agent" in
     outside (create_git_ref ("refs/heads/" ++ new_branch_name) sha)
             (w_create_git_ref w ("refs/heads/" ++ new_branch_name) sha) ;;;
     outside (create_file file_path commit_msg content new_branch_name)
             (w_create_file w file_path commit_msg content new_branch_name) ;;;
     html_url <- outside (create_pull "🤖 AI Agent: New Code Contribution"
                            "This PR was created by the multi-agent AI system."
                            new_branch_name "main")
                         (w_create_pull w new_branch_name "main") ;;
     ret (Some html_url))
    (fun _ => ret None).

(** One [await orchestrator.step(...)]. *)
Definition step (i : nat) (input : step_input) : M Turn :=
  outside (orchestrator_step i input) (w_step w i input).

(** Line 149, the body of the loop: [message = await
    orchestrator.step(message)]. *)
Definition loop_body (i : nat) (message : Turn) : M Turn :=
  step i (InMessage message).

(** Lines 144-149 of [run_agents]: the first step on the chat history,
    then [for _ in range(5)]. *)
Definition agent_turns (user_task : string) : M Turn :=
  let chat_history := "User wants: " ++ user_task in
  message <- step 0 (InText chat_history) ;;
  for_range 5 1 loop_body message.

(** Line 152: [message.content if "def " in message.content else None]. *)
Definition extract_code (message : Turn) : option string :=
  if str_in "def " (content message) then Some (content message) else None.

(** Lines 165-170 of [run_agents]. *)
Definition deliver (code user_email : string) : M RunOutcome :=
  pr_link <- create_github_pr "generated_code.py" code
                              "Add AI-generated feature" ;;
  match pr_link with
  | Some link =>
      if truthy link then
        let email_body := "🎉 Task complete! PR: " ++ link in
        send_email "✅ Your AI Task is Done" email_body user_email ;;;
        ret (Delivered link)
      else ret DeliveryFailed
  | None => ret DeliveryFailed
  end.

(** [run_agents], lines 142-170. *)
Definition run_agents (user_task user_email : string) : M RunOutcome :=
  message <- agent_turns user_task ;;
  match extract_code message with
  | None => ret NoArtifact
  | Some code =>
      if negb (truthy code) then ret NoArtifact
      else
        output <- execute_code_in_docker code ;;
        match review_gate output with
        | ABORT => ret Aborted
        | PROCEED => deliver code user_email
        end
  end.

End Program.

(** ** Observing a run *)

(** The stages of the pipeline whose invocations are counted. *)
Inductive stage := AgentTurn | Sandbox | Publish | Notify.

Definition stage_entry (s : stage) (e : event) : bool :=
  match s, e with
  | AgentTurn, Called (orchestrator_step _ _) _ => true
  | Sandbox, Enter_execute_code_in_docker _ => true
  | Publish, Enter_create_github_pr _ _ _ => true
  | Notify, Enter_send_email _ _ _ => true
  | _, _ => false
  end.

Definition count (p : event -> bool) (t : trace) : nat :=
  length (filter p t).

Definition invocations (s : stage) (t : trace) : nat :=
  count (stage_entry s) t.

(** The six requests [create_github_pr] sends to the hosting service. *)
Inductive hosting_op :=
| OpGithub | OpGetRepo | OpGetBranch | OpCreateRef | OpCreateFile | OpCreatePull.

Definition is_hosting_op (o : hosting_op) (e : event) : bool :=
  match o, e with
  | OpGithub, Called (Github _) _ => true
  | OpGetRepo, Called (get_repo _) _ => true
  | OpGetBranch, Called (get_branch _) _ => true
  | OpCreateRef, Called (create_git_ref _ _) _ => true
  | OpCreateFile, Called (create_file _ _ _ _) _ => true
  | OpCreatePull, Called (create_pull _ _ _ _) _ => true
  | _, _ => false
  end.

(** The refs that a run asked the hosting service to create. *)
Fixpoint branch_refs (t : trace) : list string :=
  match t with
  | [] => []
  | Called (create_git_ref ref _) _ :: t' => ref :: branch_refs t'
  | _ :: t' => branch_refs t'
  end.

(** The host directories that a run mounted into a container. *)
Fixpoint mounted_dirs (t : trace) : list string :=
  match t with
  | [] => []
  | Called (containers_run _ _ mount _ _ _ _ _ _ _) _ :: t' =>
      mount :: mounted_dirs t'
  | _ :: t' => mounted_dirs t'
  end.

(** An outside call that raised. *)
Definition is_failed_call (e : event) : bool :=
  match e with Called _ false => true | _ => false end.

Definition failed_calls (t : trace) : nat := count is_failed_call t.

(** Where the names of a run's resources come from: the ref that is to
    be created is the program's constant, the mounted directory is the
    one [tempfile] made up; the container is given no name at all (see
    [containers_run]). *)
Definition names_as_given (w : World) (e : event) : Prop :=
  match e with
  | Called (create_git_ref ref _) _ => ref = "refs/heads/auto/feature-agent"
  | Called (containers_run _ _ mount _ _ _ _ _ _ _) _ => w_mkdtemp w = Ok mount
  | _ => True
  end.

(** The sandbox container as the trace moves it. *)
Inductive container_state := Absent | Running | Exited | Removed.

Definition container_step (s : container_state) (e : event)
  : container_state :=
  match e with
  | Called (containers_run _ _ _ _ _ _ _ _ _ _) true => Running
  | ProcessExited => match s with Running => Exited | _ => s end
  | Called (container_remove _) true => Removed
  | _ => s
  end.

Definition container_after (t : trace) : container_state :=
  fold_left container_step t Absent.

(** The states in which the calls of [container.logs] found the
    container, in order. *)
Fixpoint states_at_logs (s : container_state) (t : trace)
  : list container_state :=
  match t with
  | [] => []
  | e :: t' =>
      match e with
      | Called (container_logs _ _) _ => s :: states_at_logs (container_step s e) t'
      | _ => states_at_logs (container_step s e) t'
      end
  end.

(** The temporary directories that exist once the trace is over: created
    and not cleaned up. *)
Fixpoint tempdirs_left (live : nat) (t : trace) : nat :=
  match t with
  | [] => live
  | Called TemporaryDirectory true :: t' => tempdirs_left (S live) t'
  | Called (tempdir_cleanup _) true :: t' => tempdirs_left (pred live) t'
  | _ :: t' => tempdirs_left live t'
  end.

(** What the executor's caller can tell of one execution: the returned
    text, whether the [try] block returned (line 75) or the handler did
    (line 78), and in the latter case the exception's text. *)
Record ExecutionResult := mkExecutionResult {
  stdout_stderr_combined : string;
  succeeded : bool;
  failure_reason : option string
}.

Definition execution_result (w : World) (code : string) : ExecutionResult :=
  match snd (sandbox_try w code) with
  | Ok out => mkExecutionResult out true None
  | Raise e => mkExecutionResult ("Execution failed: " ++ e) false (Some e)
  end.

(** ** The specification's wording, for comparison *)

(** The gate as the specification words it: the marker is in the output
    and the execution succeeded. *)
Definition spec_decide (r : ExecutionResult) : GateDecision :=
  if str_in "SAFE" (stdout_stderr_combined r) && succeeded r
  then PROCEED else ABORT.

(** The extraction as the specification words it: the most recent
    Writer turn of the transcript whose text has a function definition. *)
Definition spec_extract (transcript : list Turn) : option Turn :=
  find (fun t => RoleTag_eqb (role t) Writer && str_in "def " (content t))
       (rev transcript).

(** The default bound on agent turns as the specification words it: one
    cycle through the participants, run once. *)
Definition spec_MAX_TURNS : nat := length participants * 1.

(** The turns that the orchestrator returned during a run, oldest first. *)
Fixpoint transcript (w : World) (t : trace) : list Turn :=
  match t with
  | [] => []
  | Called (orchestrator_step i input) true :: t' =>
      match w_step w i input with
      | Ok m => m :: transcript w t'
      | Raise _ => transcript w t'
      end
  | _ :: t' => transcript w t'
  end.

(** The same world, with the sandboxed process ended or not by the time
    its logs are read. *)
Definition set_exited_before_logs (b : bool) (w : World) : World :=
  mkWorld (SMTP_HOST w) (SMTP_USER w) (SMTP_PASS w) (GITHUB_TOKEN w)
          (w_step w) (w_from_env w) (w_mkdtemp w) (w_write w) (w_run w)
          b (w_logs w) (w_remove w) (w_decode w) (w_cleanup w)
          (w_Github w) (w_get_repo w) (w_get_branch w) (w_create_git_ref w)
          (w_create_file w) (w_create_pull w)
          (w_connect w) (w_login w) (w_send w) (w_quit w).

(** ** Concrete worlds *)

(** An orchestrator that lets the participants speak in their declared
    order and makes the i-th step say the i-th of [texts]. *)
Definition scripted (texts : list string) (i : nat) (_ : step_input)
  : result Turn :=
  Ok (mkTurn (nth (i mod 5) participants Planner) (nth i texts "")).

(** A world in which every service answers, up to the listed answers. *)
Definition world_of (steps : nat -> step_input -> result Turn)
  (from_env run : result unit) (exited : bool) (logs : result string)
  (git_ref : result unit) : World :=
  mkWorld (Some "smtp.example.org") (Some "agent@example.org")
          (Some "hunter2") (Some "ghp_token")
          steps from_env (Ok "/tmp/tmpk3v9x1") (fun _ _ => Ok tt)
          (fun _ => run) exited logs (Ok tt) (fun b => Ok b)
          (fun _ => Ok tt)
          (Ok tt) (fun _ => Ok tt) (fun _ => Ok "9fceb02")
          (fun _ _ => git_ref) (fun _ _ _ _ => Ok tt)
          (fun _ _ => Ok "https://github.com/yourusername/yourrepo/pull/7")
          (Ok tt) (Ok tt) (fun _ _ _ => Ok tt) (Ok tt).

Definition add_source : string := "def add(a,b): return a+b".

(** The writer's code is also the last message; the script prints the
    marker. *)
Definition happy_texts : list string :=
  ["1. write add"; add_source; "SAFE"; "APPROVED"; "PR to follow";
   add_source].

Definition happy_world : World :=
  world_of (scripted happy_texts) (Ok tt) (Ok tt) true (Ok "SAFE") (Ok tt).

(** As [happy_world], for another requester's task. *)
Definition second_world : World :=
  world_of (scripted ["1. write mul"; "def mul(a,b): return a*b"; "SAFE";
                      "APPROVED"; "PR to follow";
                      "def mul(a,b): return a*b"])
           (Ok tt) (Ok tt) true (Ok "SAFE") (Ok tt).

(** The container cannot be started, and the daemon's message happens to
    hold the marker. *)
Definition failed_start_world : World :=
  world_of (scripted happy_texts) (Ok tt)
           (Raise "409 Conflict: daemon is in SAFE mode") true (Ok "")
           (Ok tt).

(** No Writer turn holds a function definition; the closing turn, the
    Planner's, quotes one. *)
Definition planner_quotes_world : World :=
  world_of (scripted ["1. write add"; "result = 1 + 2"; "SAFE"; "APPROVED";
                      "PR to follow"; "Next: def add(a,b): return a+b"])
           (Ok tt) (Ok tt) true (Ok "SAFE") (Ok tt).

(** The Writer turn holds a function definition; the closing turn does
    not. *)
Definition writer_then_chatter_world : World :=
  world_of (scripted ["1. write add"; add_source; "SAFE"; "APPROVED";
                      "PR to follow"; "All steps are planned."])
           (Ok tt) (Ok tt) true (Ok "SAFE") (Ok tt).

(** The sandboxed script never ends ([while True: pass] after one print). *)
Definition hanging_world : World :=
  world_of (scripted happy_texts) (Ok tt) (Ok tt) false (Ok "started")
           (Ok tt).

(** Reading the logs fails once the container runs. *)
Definition logs_fail_world : World :=
  world_of (scripted happy_texts) (Ok tt) (Ok tt) false
           (Raise "500 Server Error: cannot read logs") (Ok tt).

(** The completion backend refuses the first step. *)
Definition backend_down_world : World :=
  world_of (fun _ _ => Raise "RateLimitError") (Ok tt) (Ok tt) true
           (Ok "SAFE") (Ok tt).

(** The Docker daemon cannot be reached. *)
Definition no_daemon_world : World :=
  world_of (scripted happy_texts) (Raise "DockerException: no daemon")
           (Ok tt) true (Ok "SAFE") (Ok tt).

(** The branch already exists on the hosting service. *)
Definition branch_exists_world : World :=
  world_of (scripted happy_texts) (Ok tt) (Ok tt) true (Ok "SAFE")
           (Raise "422 Reference already exists").

(** The script prints a negative verdict. *)
Definition unsafe_verdict_world : World :=
  world_of (scripted happy_texts) (Ok tt) (Ok tt) true
           (Ok "UNSAFE: deletes files") (Ok tt).

(** The script prints nothing that holds the marker. *)
Definition no_marker_world : World :=
  world_of (scripted happy_texts) (Ok tt) (Ok tt) true (Ok "3") (Ok tt).

(** ** Further observations *)

(** The four requests [send_email] makes of the mail server. *)
Inductive smtp_op := OpConnect | OpLogin | OpSend | OpQuit.

Definition is_smtp_op (o : smtp_op) (e : event) : bool :=
  match o, e with
  | OpConnect, Called (SMTP_SSL _ _) _ => true
  | OpLogin, Called (smtp_login _ _) _ => true
  | OpSend, Called (send_message _ _ _ _) _ => true
  | OpQuit, Called smtp_quit _ => true
  | _, _ => false
  end.

(** The same world with another mail server. *)
Definition set_smtp (connect login : result unit)
  (send : string -> string -> string -> result unit) (quit : result unit)
  (w : World) : World :=
  mkWorld (SMTP_HOST w) (SMTP_USER w) (SMTP_PASS w) (GITHUB_TOKEN w)
          (w_step w) (w_from_env w) (w_mkdtemp w) (w_write w) (w_run w)
          (w_exited_before_logs w) (w_logs w) (w_remove w) (w_decode w)
          (w_cleanup w)
          (w_Github w) (w_get_repo w) (w_get_branch w) (w_create_git_ref w)
          (w_create_file w) (w_create_pull w)
          connect login send quit.

(** The stage that a trace entry opens, if it opens one. *)
Definition stage_of (e : event) : option stage :=
  match e with
  | Called (orchestrator_step _ _) _ => Some AgentTurn
  | Enter_execute_code_in_docker _ => Some Sandbox
  | Enter_create_github_pr _ _ _ => Some Publish
  | Enter_send_email _ _ _ => Some Notify
  | _ => None
  end.

Fixpoint stages (t : trace) : list stage :=
  match t with
  | [] => []
  | e :: t' =>
      match stage_of e with
      | Some s => s :: stages t'
      | None => stages t'
      end
  end.

(** The stages of a run that goes all the way, in order. *)
Definition pipeline_order : list stage :=
  [AgentTurn; AgentTurn; AgentTurn; AgentTurn; AgentTurn; AgentTurn;
   Sandbox; Publish; Notify].

(** A container start with the limits of lines 62-71. *)
Definition contained (e : event) : Prop :=
  match e with
  | Called (containers_run image command _ bind mode working_dir
              detach network_disabled mem_limit security_opt) _ =>
      image = "python:3.10" /\ command = "python script.py" /\
      bind = "/code" /\ mode = "ro" /\ working_dir = "/code" /\
      detach = true /\ network_disabled = true /\ mem_limit = "128m" /\
      security_opt = ["no-new-privileges"]
  | _ => True
  end.

Definition is_container_start (e : event) : bool :=
  match e with
  | Called (containers_run _ _ _ _ _ _ _ _ _ _) _ => true
  | _ => false
  end.

Definition is_tempdir_created (e : event) : bool :=
  match e with Called TemporaryDirectory true => true | _ => false end.

Definition is_cleanup_call (e : event) : bool :=
  match e with Called (tempdir_cleanup _) _ => true | _ => false end.

(** The hosting requests as lines 83-94 word them: the ref is cut from
    the commit that [get_branch("main")] answered, the file goes to the
    new branch, the pull request asks to merge that branch into main. *)
Definition hosting_as_coded (w : World) (e : event) : Prop :=
  match e with
  | Called (Github token) _ => token = GITHUB_TOKEN w
  | Called (get_repo name) _ => name = GITHUB_REPO
  | Called (get_branch name) _ => name = "main"
  | Called (create_git_ref ref sha) _ =>
      ref = "refs/heads/auto/feature-agent" /\ w_get_branch w "main" = Ok sha
  | Called (create_file _ _ _ branch) _ => branch = "auto/feature-agent"
  | Called (create_pull _ _ head base) _ =>
      head = "auto/feature-agent" /\ base = "main"
  | _ => True
  end.

(** A trace entry that carries source text carries [code], and what is
    published is published as generated_code.py. *)
Definition carries (code : string) (e : event) : Prop :=
  match e with
  | Enter_execute_code_in_docker c => c = code
  | Called (write_script _ c) _ => c = code
  | Enter_create_github_pr file_path c commit_msg =>
      file_path = "generated_code.py" /\ c = code /\
      commit_msg = "Add AI-generated feature"
  | Called (create_file path message c _) _ =>
      path = "generated_code.py" /\ c = code /\
      message = "Add AI-generated feature"
  | _ => True
  end.

(** The steps of the orchestrator as a chain: step [i] is handed
    [input]; if it answers, step [i + 1] is handed its answer; if it
    raises, no step follows. *)
Inductive chain (w : World) : nat -> step_input -> trace -> Prop :=
| chain_done (i : nat) (input : step_input) : chain w i input []
| chain_answer (i : nat) (input : step_input) (m : Turn) (t : trace) :
    w_step w i input = Ok m ->
    chain w (S i) (InMessage m) t ->
    chain w i input (Called (orchestrator_step i input) true :: t)
| chain_raise (i : nat) (input : step_input) (e : string) :
    w_step w i input = Raise e ->
    chain w i input [Called (orchestrator_step i input) false].

(** The temporary directory cannot be removed once the script ran. *)
Definition cleanup_fails_world : World :=
  mkWorld (Some "smtp.example.org") (Some "agent@example.org")
          (Some "hunter2") (Some "ghp_token")
          (scripted happy_texts) (Ok tt) (Ok "/tmp/tmpk3v9x1")
          (fun _ _ => Ok tt) (fun _ => Ok tt) true (Ok "SAFE") (Ok tt)
          (fun b => Ok b) (fun _ => Raise "PermissionError: /tmp/tmpk3v9x1")
          (Ok tt) (fun _ => Ok tt) (fun _ => Ok "9fceb02")
          (fun _ _ => Ok tt) (fun _ _ _ _ => Ok tt)
          (fun _ _ => Ok "https://github.com/yourusername/yourrepo/pull/7")
          (Ok tt) (Ok tt) (fun _ _ _ => Ok tt) (Ok tt).

(** The branch is created and the commit is refused. *)
Definition commit_refused_world : World :=
  mkWorld (Some "smtp.example.org") (Some "agent@example.org")
          (Some "hunter2") (Some "ghp_token")
          (scripted happy_texts) (Ok tt) (Ok "/tmp/tmpk3v9x1")
          (fun _ _ => Ok tt) (fun _ => Ok tt) true (Ok "SAFE") (Ok tt)
          (fun b => Ok b) (fun _ => Ok tt)
          (Ok tt) (fun _ => Ok tt) (fun _ => Ok "9fceb02")
          (fun _ _ => Ok tt) (fun _ _ _ _ => Raise "403 Forbidden")
          (fun _ _ => Ok "https://github.com/yourusername/yourrepo/pull/7")
          (Ok tt) (Ok tt) (fun _ _ _ => Ok tt) (Ok tt).

(** The container cannot be started, and the message holds no marker. *)
Definition no_image_world : World :=
  world_of (scripted happy_texts) (Ok tt)
           (Raise "404 Not Found: python:3.10") true (Ok "") (Ok tt).

(** The hosting service answers all six requests of [create_github_pr]
    for these arguments, the last one with the pull request's [url]. *)
Definition hosting_answers_all (w : World)
  (file_path content commit_msg url : string) : Prop :=
  w_Github w = Ok tt /\
  w_get_repo w GITHUB_REPO = Ok tt /\
  exists sha,
    w_get_branch w "main" = Ok sha /\
    w_create_git_ref w "refs/heads/auto/feature-agent" sha = Ok tt /\
    w_create_file w file_path commit_msg content "auto/feature-agent"
    = Ok tt /\
    w_create_pull w "auto/feature-agent" "main" = Ok url.

(** The entries of a [create_github_pr] in which every request is
    answered: the entry into the function and the six requests of lines
    83-94, in order. *)
Definition publish_entries (w : World)
  (file_path content commit_msg sha : string) : trace :=
  [Enter_create_github_pr file_path content commit_msg;
   Called (Github (GITHUB_TOKEN w)) true;
   Called (get_repo GITHUB_REPO) true;
   Called (get_branch "main") true;
   Called (create_git_ref "refs/heads/auto/feature-agent" sha) true;
   Called (create_file file_path commit_msg content "auto/feature-agent")
          true;
   Called (create_pull "🤖 AI Agent: New Code Contribution"
             "This PR was created by the multi-agent AI system."
             "auto/feature-agent" "main") true].

(** [e] is the message of an exception that one of the calls inside the
    [try] block of [execute_code_in_docker] raises in [w], for the
    arguments the block gives it. *)
Definition raised_in_try (w : World) (code e : string) : Prop :=
  w_mkdtemp w = Raise e \/
  exists tempdir,
    w_mkdtemp w = Ok tempdir /\
    (w_write w (os_path_join tempdir "script.py") code = Raise e \/
     w_run w tempdir = Raise e \/
     w_logs w = Raise e \/
     w_remove w = Raise e \/
     (exists raw, w_logs w = Ok raw /\ w_decode w raw = Raise e) \/
     w_cleanup w tempdir = Raise e).

(** The entries of [execute_code_in_docker] up to the start of the
    container: the Docker client, the directory, the script, and
    [containers.run] with the arguments of lines 62-71, [detach=True]
    among them. *)
Definition start_entries (code tempdir : string) : trace :=
  [Enter_execute_code_in_docker code;
   Called docker_from_env true;
   Called TemporaryDirectory true;
   Called (write_script (os_path_join tempdir "script.py") code) true;
   Called (containers_run "python:3.10" "python script.py" tempdir
             "/code" "ro" "/code" true true "128m" ["no-new-privileges"])
          true].

(** ** Proof tools *)

Arguments invocations : simpl never.
Arguments send_email : simpl never.
Arguments create_github_pr : simpl never.
Arguments execute_code_in_docker : simpl never.
Arguments agent_turns : simpl never.

(** Splits every answer of the world that the goal still inspects. *)
Ltac split_innermost x :=
  lazymatch x with
  | context [match _ with _ => _ end] => fail
  | _ => destruct x
  end.

Ltac split_answers :=
  repeat (cbn;
          match goal with
          | |- context [match ?x with _ => _ end] => split_innermost x
          end);
  cbn.

(** ** Strings *)

Lemma str_in_unfold (needle hay : string) :
  str_in needle hay =
  if prefix needle hay then true
  else match hay with
       | EmptyString => false
       | String _ rest => str_in needle rest
       end.
Proof. destruct hay; reflexivity. Qed.

Lemma prefix_app (a b : string) : prefix a (a ++ b) = true.
Proof.
  induction a as [|c a IH]; simpl.
  - destruct b; reflexivity.
  - destruct (ascii_dec c c) as [_|n]; [exact IH | now elim n].
Qed.

Lemma prefix_split (a s : string) :
  prefix a s = true -> exists b, s = a ++ b.
Proof.
  revert s; induction a as [|c a IH]; intros s H.
  - now exists s.
  - destruct s as [|d s]; simpl in H; [discriminate|].
    destruct (ascii_dec c d) as [->|_]; [|discriminate].
    destruct (IH s H) as [b ->]. now exists b.
Qed.

(** [str_in] is substring containment. *)
Lemma str_in_spec (needle hay : string) :
  str_in needle hay = true <-> exists a b, hay = a ++ needle ++ b.
Proof.
  split.
  - induction hay as [|c hay IH]; rewrite str_in_unfold;
      destruct (prefix needle _) eqn:P; intro H.
    + apply prefix_split in P as [b ->]. now exists "", b.
    + discriminate.
    + apply prefix_split in P as [b ->]. now exists "", b.
    + destruct (IH H) as (a & b & ->). now exists (String c a), b.
  - intros (a & b & ->). induction a as [|c a IH].
    + rewrite str_in_unfold. simpl. now rewrite prefix_app.
    + rewrite str_in_unfold.
      destruct (prefix needle _); [reflexivity | exact IH].
Qed.

Lemma str_in_failure_text (e : string) :
  str_in "SAFE" ("Execution failed: " ++ e) = str_in "SAFE" e.
Proof. reflexivity. Qed.

Lemma str_in_truthy (needle hay : string) :
  truthy needle = true -> str_in needle hay = true -> truthy hay = true.
Proof.
  destruct hay; [|reflexivity].
  destruct needle; simpl; [discriminate | intros _ H; discriminate H].
Qed.

Lemma review_gate_spec (output : string) :
  review_gate output = PROCEED <-> exists a b, output = a ++ "SAFE" ++ b.
Proof.
  rewrite <- str_in_spec. unfold review_gate.
  destruct (str_in "SAFE" output); simpl; split; congruence.
Qed.

(** ** Traces *)

Lemma count_app (p : event -> bool) (a b : trace) :
  count p (a ++ b)%list = count p a + count p b.
Proof. unfold count. now rewrite filter_app, length_app. Qed.

Lemma invocations_app (s : stage) (a b : trace) :
  invocations s (a ++ b)%list = invocations s a + invocations s b.
Proof. apply count_app. Qed.

(** ** The helpers, one by one *)

Section Helpers.

Variable w : World.

Lemma send_email_returns (subject body recipient : string) :
  snd (send_email w subject body recipient) = Ok tt.
Proof.
  unfold send_email, bind, try_except, with_exit, outside, emit, ret.
  split_answers;
    repeat match goal with x : unit |- _ => destruct x end; reflexivity.
Qed.

Lemma send_email_invocations (subject body recipient : string) (s : stage) :
  invocations s (fst (send_email w subject body recipient)) =
  match s with Notify => 1 | _ => 0 end.
Proof.
  unfold send_email, bind, try_except, with_exit, outside, emit, ret.
  destruct s; split_answers; reflexivity.
Qed.

Lemma create_github_pr_returns (file_path content commit_msg : string) :
  exists link, snd (create_github_pr w file_path content commit_msg)
               = Ok link.
Proof.
  unfold create_github_pr, bind, try_except, outside, emit, ret.
  split_answers; eexists; reflexivity.
Qed.

Lemma create_github_pr_invocations
  (file_path content commit_msg : string) (s : stage) :
  invocations s (fst (create_github_pr w file_path content commit_msg)) =
  match s with Publish => 1 | _ => 0 end.
Proof.
  unfold create_github_pr, bind, try_except, outside, emit, ret.
  destruct s; split_answers; reflexivity.
Qed.

Lemma execute_invocations (code : string) (s : stage) :
  invocations s (fst (execute_code_in_docker w code)) =
  match s with Sandbox => 1 | _ => 0 end.
Proof.
  unfold execute_code_in_docker, sandbox_try, process_window,
    bind, try_except, with_exit, outside, emit, ret.
  destruct s; split_answers; reflexivity.
Qed.

End Helpers.

(** ** The agent turns *)

Lemma last_cons_default {A} (l : list A) (a d : A) :
  last (a :: l) d = last l a.
Proof.
  revert a d; induction l as [|b l IH]; intros a d; [reflexivity|].
  change (last (a :: b :: l) d) with (last (b :: l) d).
  now rewrite (IH b d), (IH b a).
Qed.

Section Turns.

Variable w : World.

(** The loop of line 148 makes at most [n] steps and nothing else, and
    exactly [n] when no step raises. *)
Lemma for_range_steps (n i : nat) (m : Turn) (t : trace) (r : result Turn) :
  for_range n i (loop_body w) m = (t, r) ->
  length t <= n /\
  (is_ok r = true -> length t = n) /\
  forall s, invocations s t = match s with AgentTurn => length t | _ => 0 end.
Proof.
  revert i m t r; induction n as [|n IH]; intros i m t r.
  - cbn. intro H; inversion H; subst. cbn.
    repeat split; auto. now intros [].
  - cbn [for_range]. unfold bind.
    unfold loop_body at 1, step, outside.
    destruct (w_step w i (InMessage m)) as [m'|e].
    + destruct (for_range n (S i) (loop_body w) m') as [t' r'] eqn:F.
      apply IH in F as (Hle & Hok & Hst).
      intro H; inversion H; subst. cbn [length is_ok].
      repeat split; [lia | intro H'; now rewrite Hok |].
      intro s. specialize (Hst s).
      change (invocations s (?e :: t')) with (invocations s ([e] ++ t')%list).
      rewrite invocations_app, Hst. now destruct s.
    + intro H; inversion H; subst. cbn.
      repeat split; [lia | discriminate | now intros []].
Qed.

(** The message the loop returns is the last turn it obtained. *)
Lemma for_range_last (n i : nat) (m m' : Turn) (t : trace) :
  for_range n i (loop_body w) m = (t, Ok m') -> last (transcript w t) m = m'.
Proof.
  revert i m t; induction n as [|n IH]; intros i m t.
  - cbn. intro H; now inversion H.
  - cbn [for_range]. unfold bind, loop_body at 1, step, outside.
    destruct (w_step w i (InMessage m)) as [m1|e] eqn:E; [|discriminate].
    destruct (for_range n (S i) (loop_body w) m1) as [t' r'] eqn:F.
    intro H; inversion H; subst. cbn in E |- *. rewrite E.
    rewrite last_cons_default. now apply (IH (S i)).
Qed.

Lemma agent_turns_steps (user_task : string) (t : trace) (r : result Turn) :
  agent_turns w user_task = (t, r) ->
  length t <= 6 /\
  (is_ok r = true -> length t = 6) /\
  forall s, invocations s t = match s with AgentTurn => length t | _ => 0 end.
Proof.
  unfold agent_turns, bind, step at 1, outside.
  destruct (w_step w 0 _) as [m|e].
  - destruct (for_range 5 1 (loop_body w) m) as [t' r'] eqn:F.
    apply for_range_steps in F as (Hle & Hok & Hst).
    intro H; inversion H; subst. cbn [length is_ok].
    repeat split; [lia | intro H'; now rewrite Hok |].
    intro s. specialize (Hst s).
    change (invocations s (?e :: t')) with (invocations s ([e] ++ t')%list).
    rewrite invocations_app, Hst. now destruct s.
  - intro H; inversion H; subst. cbn.
    repeat split; [lia | discriminate | now intros []].
Qed.

Lemma agent_turns_last (user_task : string) (t : trace) (m d : Turn) :
  agent_turns w user_task = (t, Ok m) -> last (transcript w t) d = m.
Proof.
  unfold agent_turns, bind, step at 1, outside.
  destruct (w_step w 0 _) as [m0|e] eqn:E; [|discriminate].
  destruct (for_range 5 1 (loop_body w) m0) as [t' r'] eqn:F.
  intro H; inversion H; subst. cbn in E |- *. rewrite E.
  rewrite last_cons_default. now apply (for_range_last 5 1).
Qed.

End Turns.

(** ** Delivery and the whole run *)


Section Run.

Variable w : World.

Lemma deliver_returns (code user_email : string) :
  exists o, snd (deliver w code user_email) = Ok o.
Proof.
  unfold deliver, bind.
  destruct (create_github_pr_returns w "generated_code.py" code
              "Add AI-generated feature") as [link H].
  destruct (create_github_pr w _ _ _) as [t r]. cbn in H. subst r.
  destruct link as [link|]; [|cbn; eauto].
  destruct (truthy link); [|cbn; eauto].
  pose proof (send_email_returns w "✅ Your AI Task is Done"
                ("🎉 Task complete! PR: " ++ link) user_email) as H.
  destruct (send_email w _ _ _) as [t' r']. cbn in H. subst r'.
  cbn. eauto.
Qed.

Lemma deliver_invocations (code user_email : string) (s : stage) :
  invocations s (fst (deliver w code user_email)) <=
  match s with Publish | Notify => 1 | _ => 0 end.
Proof.
  unfold deliver, bind.
  pose proof (create_github_pr_invocations w "generated_code.py" code
                "Add AI-generated feature" s) as Hp.
  destruct (create_github_pr w _ _ _) as [t [[link|]|e]]; cbn in Hp |- *;
    rewrite ?app_nil_r; try (rewrite Hp; destruct s; lia).
  destruct (truthy link); cbn; rewrite ?app_nil_r;
    try (rewrite Hp; destruct s; lia).
  pose proof (send_email_invocations w "✅ Your AI Task is Done"
                ("🎉 Task complete! PR: " ++ link) user_email s) as Hn.
  destruct (send_email w _ _ _) as [t' [[]|e']]; cbn in Hn |- *;
    rewrite ?app_nil_r, ?invocations_app, Hp, ?Hn; destruct s; cbn; lia.
Qed.

(** [run_agents] read as the composition of its four parts. *)
Lemma run_agents_unfold (user_task user_email : string) :
  run_agents w user_task user_email =
  match agent_turns w user_task with
  | (t0, Raise e) => (t0, Raise e)
  | (t0, Ok m) =>
      if str_in "def " (content m) then
        match execute_code_in_docker w (content m) with
        | (t1, Raise e) => ((t0 ++ t1)%list, Raise e)
        | (t1, Ok output) =>
            match review_gate output with
            | ABORT => ((t0 ++ t1)%list, Ok Aborted)
            | PROCEED =>
                let (t2, r) := deliver w (content m) user_email in
                ((t0 ++ t1 ++ t2)%list, r)
            end
        end
      else (t0, Ok NoArtifact)
  end.
Proof.
  unfold run_agents, bind, extract_code.
  destruct (agent_turns w user_task) as [t0 [m|e]]; [|reflexivity].
  destruct (str_in "def " (content m)) eqn:D.
  - rewrite (str_in_truthy "def " (content m) eq_refl D). cbn [negb].
    destruct (execute_code_in_docker w (content m)) as [t1 [output|e]];
      [|reflexivity].
    destruct (review_gate output).
    + destruct (deliver w (content m) user_email) as [t2 r].
      now rewrite app_assoc.
    + cbn. now rewrite app_nil_r.
  - cbn. now rewrite app_nil_r.
Qed.

End Run.

(** ** The run as a whole: how often each stage is entered *)

Section Bounds.

Variable w : World.

Lemma run_agents_invocations (user_task user_email : string) (s : stage) :
  invocations s (fst (run_agents w user_task user_email)) <=
  match s with AgentTurn => 6 | _ => 1 end.
Proof.
  rewrite run_agents_unfold.
  destruct (agent_turns w user_task) as [t0 r0] eqn:A.
  apply agent_turns_steps in A as (Hle & _ & Hst). specialize (Hst s).
  assert (H0 : invocations s t0 <= match s with AgentTurn => 6 | _ => 0 end)
    by (rewrite Hst; destruct s; lia).
  destruct r0 as [m|e]; [|cbn [fst]; destruct s; lia].
  destruct (str_in "def " (content m)); [|cbn [fst]; destruct s; lia].
  pose proof (execute_invocations w (content m) s) as H1.
  destruct (execute_code_in_docker w (content m)) as [t1 [output|e]];
    cbn [fst] in H1; [|cbn [fst]; rewrite invocations_app; destruct s; lia].
  destruct (review_gate output);
    [|cbn [fst]; rewrite invocations_app; destruct s; lia].
  pose proof (deliver_invocations w (content m) user_email s) as H2.
  destruct (deliver w (content m) user_email) as [t2 r2].
  cbn [fst] in H2 |- *. rewrite !invocations_app. destruct s; lia.
Qed.

Lemma run_agents_six_steps (user_task user_email : string) :
  invocations AgentTurn (fst (run_agents w user_task user_email)) = 6 \/
  exists e, snd (agent_turns w user_task) = Raise e.
Proof.
  rewrite run_agents_unfold.
  destruct (agent_turns w user_task) as [t0 r0] eqn:A.
  apply agent_turns_steps in A as (_ & Hok & Hst).
  destruct r0 as [m|e]; [left | right; now exists e].
  specialize (Hok eq_refl). pose proof (Hst AgentTurn) as H0.
  rewrite Hok in H0.
  destruct (str_in "def " (content m)); [|exact H0].
  pose proof (execute_invocations w (content m) AgentTurn) as H1.
  destruct (execute_code_in_docker w (content m)) as [t1 [output|e]];
    cbn [fst] in H1 |- *; [|rewrite invocations_app; lia].
  destruct (review_gate output); [|cbn [fst]; rewrite invocations_app; lia].
  pose proof (deliver_invocations w (content m) user_email AgentTurn) as H2.
  destruct (deliver w (content m) user_email) as [t2 r2].
  cbn [fst] in H2 |- *. rewrite !invocations_app. lia.
Qed.

End Bounds.


(** ** The run as a whole: how long its trace is *)

Section Lengths.

Variable w : World.

Lemma send_email_length (subject body recipient : string) :
  length (fst (send_email w subject body recipient)) <= 5.
Proof.
  unfold send_email, bind, try_except, with_exit, outside, emit, ret.
  split_answers; lia.
Qed.

Lemma create_github_pr_length (file_path content commit_msg : string) :
  length (fst (create_github_pr w file_path content commit_msg)) <= 7.
Proof.
  unfold create_github_pr, bind, try_except, outside, emit, ret.
  split_answers; lia.
Qed.

Lemma execute_length (code : string) :
  length (fst (execute_code_in_docker w code)) <= 10.
Proof.
  unfold execute_code_in_docker, sandbox_try, process_window,
    bind, try_except, with_exit, outside, emit, ret.
  split_answers; lia.
Qed.

Lemma deliver_length (code user_email : string) :
  length (fst (deliver w code user_email)) <= 12.
Proof.
  unfold deliver, bind.
  pose proof (create_github_pr_length "generated_code.py" code
                "Add AI-generated feature") as Hp.
  destruct (create_github_pr w _ _ _) as [t [[link|]|e]]; cbn in Hp |- *;
    rewrite ?app_nil_r; try lia.
  destruct (truthy link); cbn; rewrite ?app_nil_r; try lia.
  pose proof (send_email_length "✅ Your AI Task is Done"
                ("🎉 Task complete! PR: " ++ link) user_email) as Hn.
  destruct (send_email w _ _ _) as [t' [[]|e']]; cbn in Hn |- *;
    rewrite ?app_nil_r, ?length_app; lia.
Qed.

Lemma run_agents_length (user_task user_email : string) :
  length (fst (run_agents w user_task user_email)) <= 28.
Proof.
  rewrite run_agents_unfold.
  destruct (agent_turns w user_task) as [t0 r0] eqn:A.
  apply agent_turns_steps in A as (Hle & _ & _).
  destruct r0 as [m|e]; [|cbn [fst]; lia].
  destruct (str_in "def " (content m)); [|cbn [fst]; lia].
  pose proof (execute_length (content m)) as H1.
  destruct (execute_code_in_docker w (content m)) as [t1 [output|e]];
    cbn [fst] in H1 |- *; [|rewrite length_app; lia].
  destruct (review_gate output); [|cbn [fst]; rewrite length_app; lia].
  pose proof (deliver_length (content m) user_email) as H2.
  destruct (deliver w (content m) user_email) as [t2 r2].
  cbn [fst] in H2 |- *. rewrite !length_app. lia.
Qed.

End Lengths.

(** ** Claims *)

(** C8, as the specification states it, fails: with the default bound of
    one cycle through the five roles, a run in which every step answers
    makes six agent-turn calls, one more than the bound. *)
Lemma agent_turn_calls_exceed_one_cycle :
  spec_MAX_TURNS = 5 /\
  invocations AgentTurn
    (fst (run_agents happy_world "add two numbers" "me@example.org")) = 6 /\
  ~ invocations AgentTurn
      (fst (run_agents happy_world "add two numbers" "me@example.org"))
    <= spec_MAX_TURNS.
Proof.
  split; [reflexivity|]. split; [reflexivity|].
  vm_compute. intro H. repeat apply le_S_n in H. inversion H.
Qed.

(** C8, amended: every run ends after at most six agent-turn calls (the
    first step on the task text, then the loop of five), at most one
    sandbox execution, at most one publish and at most one notify, 28
    trace entries in all; the agent-turn calls are exactly six unless one
    of them raises. *)
Theorem run_makes_boundedly_many_calls (w : World)
  (user_task user_email : string) :
  let t := fst (run_agents w user_task user_email) in
  invocations AgentTurn t <= 6 /\
  invocations Sandbox t <= 1 /\
  invocations Publish t <= 1 /\
  invocations Notify t <= 1 /\
  length t <= 28 /\
  (invocations AgentTurn t = 6 \/
   exists e, snd (agent_turns w user_task) = Raise e).
Proof.
  cbv zeta. repeat split;
    try apply (run_agents_invocations w user_task user_email AgentTurn);
    try apply (run_agents_invocations w user_task user_email Sandbox);
    try apply (run_agents_invocations w user_task user_email Publish);
    try apply (run_agents_invocations w user_task user_email Notify);
    try apply run_agents_length.
  apply run_agents_six_steps.
Qed.

(** C6: publish and notify are each entered at most once in a run; when
    either is entered, the agent turns returned a message, the sandbox
    returned a text and the gate decided PROCEED on it; and when the gate
    decides ABORT on the sandbox text (the marker is absent), the run ends
    Aborted with neither publish nor notify entered. *)
Theorem delivery_only_after_proceed (w : World)
  (user_task user_email : string) :
  let run := run_agents w user_task user_email in
  invocations Publish (fst run) <= 1 /\
  invocations Notify (fst run) <= 1 /\
  (0 < invocations Publish (fst run) + invocations Notify (fst run) ->
   exists t0 m t1 output,
     agent_turns w user_task = (t0, Ok m) /\
     execute_code_in_docker w (content m) = (t1, Ok output) /\
     review_gate output = PROCEED) /\
  (forall t0 m t1 output,
     agent_turns w user_task = (t0, Ok m) ->
     str_in "def " (content m) = true ->
     execute_code_in_docker w (content m) = (t1, Ok output) ->
     str_in "SAFE" output = false ->
     review_gate output = ABORT /\
     snd run = Ok Aborted /\
     invocations Publish (fst run) = 0 /\
     invocations Notify (fst run) = 0).
Proof.
  cbv zeta.
  split; [apply (run_agents_invocations w user_task user_email Publish)|].
  split; [apply (run_agents_invocations w user_task user_email Notify)|].
  split.
  - rewrite run_agents_unfold.
    destruct (agent_turns w user_task) as [t0 r0] eqn:A.
    pose proof A as A'.
    apply agent_turns_steps in A' as (_ & _ & Hst).
    pose proof (Hst Publish) as Hp0. pose proof (Hst Notify) as Hn0.
    cbn in Hp0, Hn0.
    destruct r0 as [m|e]; [|cbn [fst]; lia].
    destruct (str_in "def " (content m)); [|cbn [fst]; lia].
    pose proof (execute_invocations w (content m) Publish) as Hp1.
    pose proof (execute_invocations w (content m) Notify) as Hn1.
    destruct (execute_code_in_docker w (content m)) as [t1 [output|e]] eqn:E;
      cbn in Hp1, Hn1 |- *;
      [|rewrite !invocations_app; lia].
    destruct (review_gate output) eqn:G;
      [|cbn [fst]; rewrite !invocations_app; lia].
    intros _. now exists t0, m, t1, output.
  - intros t0 m t1 output A D E S.
    assert (G : review_gate output = ABORT)
      by (unfold review_gate; now rewrite S).
    rewrite run_agents_unfold, A, D, E, G. cbn [fst snd].
    apply agent_turns_steps in A as (_ & _ & Hst).
    rewrite !invocations_app, (Hst Publish), (Hst Notify).
    pose proof (execute_invocations w (content m)) as H1.
    rewrite E in H1. cbn [fst] in H1.
    now rewrite (H1 Publish), (H1 Notify).
Qed.

(** Witness of C6: in a run whose script prints no marker the premises
    of the abort case hold, and nothing is published or notified; in the
    plain run the gate proceeds and both are entered once. *)
Lemma delivery_only_after_proceed_witness :
  (snd (run_agents no_marker_world "add two numbers" "me@example.org")
     = Ok Aborted /\
   invocations Publish
     (fst (run_agents no_marker_world "add two numbers" "me@example.org")) = 0) /\
  exists output,
    snd (execute_code_in_docker happy_world add_source) = Ok output /\
    review_gate output = PROCEED.
Proof.
  split.
  - destruct (delivery_only_after_proceed no_marker_world
                "add two numbers" "me@example.org") as (_ & _ & _ & H).
    destruct (H _ _ _ _ eq_refl eq_refl eq_refl eq_refl) as (_ & R & P & _).
    split; [exact R | exact P].
  - destruct (delivery_only_after_proceed happy_world
                "add two numbers" "me@example.org") as (_ & _ & H & _).
    destruct H as (t0 & m & t1 & output & A & E & G).
    + vm_compute. lia.
    + exists output. split; [|exact G].
      vm_compute in A. injection A as <- <-.
      cbn [content] in E. unfold add_source. now rewrite E.
Defined.

(** What [create_github_pr] returns and how: it never raises; each of the
    six hosting requests is sent at most once; either none failed and the
    result is the URL of the pull request, or exactly one failed, it is
    the last entry of the trace, and the result is [None]. *)
Lemma create_github_pr_outcome (w : World)
  (file_path content commit_msg : string) :
  exists t link,
    create_github_pr w file_path content commit_msg = (t, Ok link) /\
    (forall o, count (is_hosting_op o) t <= 1) /\
    ((failed_calls t = 0 /\
      exists url, link = Some url /\
                  w_create_pull w "auto/feature-agent" "main" = Ok url) \/
     (failed_calls t = 1 /\ link = None /\
      exists t' c, t = (t' ++ [Called c false])%list)).
Proof.
  unfold create_github_pr, bind, try_except, outside, emit, ret.
  destruct (w_Github w); [|cbn].
  destruct (w_get_repo w GITHUB_REPO); [|cbn].
  destruct (w_get_branch w "main") as [sha|]; [|cbn].
  destruct (w_create_git_ref w _ sha); [|cbn].
  destruct (w_create_file w file_path commit_msg content _); [|cbn].
  destruct (w_create_pull w _ "main") as [url|]; cbn.
  all: do 2 eexists; (split; [reflexivity|]);
    (split; [intros []; cbn; lia|]).
  1: left; split; [reflexivity | now exists url].
  all: right; split; [reflexivity|]; split; [reflexivity|].
  - eexists [_; _; _; _; _; _], _. reflexivity.
  - eexists [_; _; _; _; _], _. reflexivity.
  - eexists [_; _; _; _], _. reflexivity.
  - eexists [_; _; _], _. reflexivity.
  - eexists [_; _], _. reflexivity.
  - eexists [_], _. reflexivity.
Qed.

(** When the hosting service answers all six requests, [create_github_pr]
    sends exactly those six, in order, and returns the URL. *)
Lemma create_github_pr_all_answered (w : World)
  (file_path content commit_msg sha url : string) :
  w_Github w = Ok tt ->
  w_get_repo w GITHUB_REPO = Ok tt ->
  w_get_branch w "main" = Ok sha ->
  w_create_git_ref w "refs/heads/auto/feature-agent" sha = Ok tt ->
  w_create_file w file_path commit_msg content "auto/feature-agent"
  = Ok tt ->
  w_create_pull w "auto/feature-agent" "main" = Ok url ->
  create_github_pr w file_path content commit_msg
  = (publish_entries w file_path content commit_msg sha, Ok (Some url)).
Proof.
  intros G R B C F P.
  unfold create_github_pr, bind, try_except, outside, emit, ret.
  rewrite G, R, B. cbn. rewrite C, F, P. reflexivity.
Qed.

(** Conversely a URL is returned only when all six were answered. *)
Lemma create_github_pr_some_inv (w : World)
  (file_path content commit_msg url : string) :
  snd (create_github_pr w file_path content commit_msg) = Ok (Some url) ->
  hosting_answers_all w file_path content commit_msg url.
Proof.
  unfold create_github_pr, hosting_answers_all, bind, try_except, outside,
    emit, ret.
  destruct (w_Github w) as [[]|]; [|discriminate].
  destruct (w_get_repo w GITHUB_REPO) as [[]|]; [|discriminate].
  destruct (w_get_branch w "main") as [sha|]; [|discriminate].
  cbn.
  destruct (w_create_git_ref w _ sha) as [[]|] eqn:C; [|discriminate].
  destruct (w_create_file w file_path commit_msg content _) as [[]|] eqn:F;
    [|discriminate].
  destruct (w_create_pull w _ "main") as [u|] eqn:P; [|discriminate].
  cbn. intro H; injection H as <-.
  split; [reflexivity|]. split; [reflexivity|]. now exists sha.
Qed.

Lemma create_github_pr_some_iff (w : World)
  (file_path content commit_msg url : string) :
  snd (create_github_pr w file_path content commit_msg) = Ok (Some url) <->
  hosting_answers_all w file_path content commit_msg url.
Proof.
  split; [apply create_github_pr_some_inv|].
  intros (G & R & sha & B & C & F & P).
  now rewrite (create_github_pr_all_answered w file_path content commit_msg
                 sha url G R B C F P).
Qed.

Lemma publish_entries_each_once (w : World)
  (file_path content commit_msg sha : string) (o : hosting_op) :
  count (is_hosting_op o)
        (publish_entries w file_path content commit_msg sha) = 1.
Proof. destruct o; reflexivity. Qed.

(** C7: publish never raises and never retries, and what it returns is
    decided by the hosting service's answers: [create_github_pr] returns
    the pull request's URL exactly when the service answers all six
    requests, having sent each of them once, and [None] exactly when the
    service refuses one of them (whichever, also after the branch was
    created), the refused request being the last one sent and none being
    sent twice; and when it returns [None] after the gate decided
    PROCEED, the run ends DeliveryFailed and notify is not entered at
    all. *)
Theorem publish_failure_is_reported_not_raised (w : World) :
  (forall file_path content commit_msg,
     exists t link,
       create_github_pr w file_path content commit_msg = (t, Ok link) /\
       (forall o, count (is_hosting_op o) t <= 1) /\
       ((failed_calls t = 0 /\
         exists url, link = Some url /\
                     w_create_pull w "auto/feature-agent" "main" = Ok url) \/
        (failed_calls t = 1 /\ link = None /\
         exists t' c, t = (t' ++ [Called c false])%list)) /\
       (forall url,
          link = Some url <->
          hosting_answers_all w file_path content commit_msg url) /\
       (link = None <->
        forall url,
          ~ hosting_answers_all w file_path content commit_msg url) /\
       (forall url sha,
          hosting_answers_all w file_path content commit_msg url ->
          w_get_branch w "main" = Ok sha ->
          t = publish_entries w file_path content commit_msg sha /\
          forall o, count (is_hosting_op o) t = 1)) /\
  (forall user_task user_email t0 m t1 output t2,
     agent_turns w user_task = (t0, Ok m) ->
     str_in "def " (content m) = true ->
     execute_code_in_docker w (content m) = (t1, Ok output) ->
     review_gate output = PROCEED ->
     create_github_pr w "generated_code.py" (content m)
                      "Add AI-generated feature" = (t2, Ok None) ->
     run_agents w user_task user_email
       = ((t0 ++ t1 ++ t2)%list, Ok DeliveryFailed) /\
     invocations Notify (t0 ++ t1 ++ t2)%list = 0).
Proof.
  split.
  - intros file_path content commit_msg.
    destruct (create_github_pr_outcome w file_path content commit_msg)
      as (t & link & E & Hcount & Hshape).
    pose proof (create_github_pr_some_iff w file_path content commit_msg)
      as Hiff.
    rewrite E in Hiff. cbn [snd] in Hiff.
    assert (Hsome : forall url,
               link = Some url <->
               hosting_answers_all w file_path content commit_msg url).
    { intro url. rewrite <- Hiff. split; congruence. }
    exists t, link. split; [exact E|]. split; [exact Hcount|].
    split; [exact Hshape|]. split; [exact Hsome|]. split.
    + split.
      * intros -> url H. apply Hsome in H. discriminate H.
      * intro H. destruct link as [url|]; [|reflexivity].
        elim (H url). now apply Hsome.
    + intros url sha (G & R & sha' & B & C & F & P) B'.
      rewrite B in B'. injection B' as ->.
      rewrite (create_github_pr_all_answered w file_path content commit_msg
                 sha url G R B C F P) in E.
      injection E as <- _.
      split; [reflexivity | intro o; apply publish_entries_each_once].
  - intros user_task user_email t0 m t1 output t2 A D E G P.
    split.
    + rewrite run_agents_unfold, A, D, E, G.
      unfold deliver, bind. rewrite P. cbn. now rewrite app_nil_r.
    + apply agent_turns_steps in A as (_ & _ & Hst).
      pose proof (execute_invocations w (content m) Notify) as H1.
      pose proof (create_github_pr_invocations w "generated_code.py"
                    (content m) "Add AI-generated feature" Notify) as H2.
      rewrite E in H1. rewrite P in H2. cbn [fst] in H1, H2.
      now rewrite !invocations_app, (Hst Notify), H1, H2.
Qed.

(** Witness of C7: where the hosting service answers every request the
    URL of the pull request comes back after the six requests; where the
    branch already exists the run ends DeliveryFailed without notify. *)
Lemma publish_failure_is_reported_not_raised_witness :
  create_github_pr happy_world "generated_code.py" add_source
                   "Add AI-generated feature"
  = (publish_entries happy_world "generated_code.py" add_source
                     "Add AI-generated feature" "9fceb02",
     Ok (Some "https://github.com/yourusername/yourrepo/pull/7")) /\
  snd (run_agents branch_exists_world "add two numbers" "me@example.org")
    = Ok DeliveryFailed /\
  invocations Notify
    (fst (run_agents branch_exists_world "add two numbers" "me@example.org"))
    = 0.
Proof.
  split.
  - destruct (publish_failure_is_reported_not_raised happy_world)
      as [H _].
    destruct (H "generated_code.py" add_source "Add AI-generated feature")
      as (t & link & E & _ & _ & Hsome & _ & Hall).
    assert (A : hosting_answers_all happy_world "generated_code.py"
                  add_source "Add AI-generated feature"
                  "https://github.com/yourusername/yourrepo/pull/7").
    { split; [reflexivity|]. split; [reflexivity|].
      exists "9fceb02". repeat split; reflexivity. }
    destruct (Hall _ "9fceb02" A eq_refl) as [-> _].
    apply Hsome in A. subst link. exact E.
  - destruct (publish_failure_is_reported_not_raised branch_exists_world)
      as [_ H].
    destruct (H "add two numbers" "me@example.org" _ _ _ _ _
                eq_refl eq_refl eq_refl eq_refl eq_refl) as [R N].
    rewrite R. split; [reflexivity | exact N].
Defined.

(** C10: the gate tests whether "SAFE" occurs anywhere in the sandbox
    text: it proceeds on every text of the form a ++ "SAFE" ++ b and only
    on those, hence on "UNSAFE: deletes files"; and there is a run whose
    sandbox prints that negative verdict, on which the gate proceeds,
    publish is entered and the run ends Delivered. *)
Theorem marker_inside_negative_verdict_proceeds :
  (forall output, review_gate output = PROCEED <->
                  exists a b, output = a ++ "SAFE" ++ b) /\
  review_gate "UNSAFE: deletes files" = PROCEED /\
  exists w user_task user_email t link,
    execute_code_in_docker w add_source = (t, Ok "UNSAFE: deletes files") /\
    invocations Sandbox (fst (run_agents w user_task user_email)) = 1 /\
    invocations Publish (fst (run_agents w user_task user_email)) = 1 /\
    snd (run_agents w user_task user_email) = Ok (Delivered link).
Proof.
  split; [exact review_gate_spec|]. split; [reflexivity|].
  exists unsafe_verdict_world, "add two numbers", "me@example.org".
  do 2 eexists. repeat split; vm_compute; reflexivity.
Qed.

(** ** Resource names *)

Lemma names_branch_refs (w : World) (t : trace) :
  Forall (names_as_given w) t ->
  Forall (fun ref => ref = "refs/heads/auto/feature-agent") (branch_refs t).
Proof.
  induction 1 as [|e t He _ IH]; [constructor|].
  destruct e as [c ok| | | |]; cbn; try exact IH.
  destruct c; cbn; try exact IH. now constructor.
Qed.

Lemma names_mounted_dirs (w : World) (t : trace) :
  Forall (names_as_given w) t ->
  Forall (fun d => w_mkdtemp w = Ok d) (mounted_dirs t).
Proof.
  induction 1 as [|e t He _ IH]; [constructor|].
  destruct e as [c ok| | | |]; cbn; try exact IH.
  destruct c; cbn; try exact IH. now constructor.
Qed.

Section Names.

Variable w : World.

Lemma for_range_names (n i : nat) (m : Turn) :
  Forall (names_as_given w)
    (fst (for_range n i (loop_body w) m)).
Proof.
  revert i m; induction n as [|n IH]; intros i m; [constructor|].
  cbn [for_range]. unfold bind, loop_body at 1, step, outside.
  destruct (w_step w i (InMessage m)) as [m'|e].
  - specialize (IH (S i) m').
    destruct (for_range n (S i) _ m') as [t' r']. cbn in IH |- *.
    constructor; [exact I | exact IH].
  - cbn. repeat constructor.
Qed.

Lemma agent_turns_names (user_task : string) :
  Forall (names_as_given w) (fst (agent_turns w user_task)).
Proof.
  unfold agent_turns, bind, step at 1, outside.
  destruct (w_step w 0 _) as [m|e].
  - pose proof (for_range_names 5 1 m) as H.
    destruct (for_range 5 1 _ m) as [t' r']. cbn in H |- *.
    constructor; [exact I | exact H].
  - cbn. repeat constructor.
Qed.

Lemma execute_names (code : string) :
  Forall (names_as_given w) (fst (execute_code_in_docker w code)).
Proof.
  unfold execute_code_in_docker, sandbox_try, process_window,
    bind, try_except, with_exit, outside, emit, ret.
  destruct (w_mkdtemp w) as [tempdir|] eqn:T;
    split_answers; repeat constructor; exact T.
Qed.

Lemma create_github_pr_names (file_path content commit_msg : string) :
  Forall (names_as_given w)
         (fst (create_github_pr w file_path content commit_msg)).
Proof.
  unfold create_github_pr, bind, try_except, outside, emit, ret.
  split_answers; repeat constructor.
Qed.

Lemma send_email_names (subject body recipient : string) :
  Forall (names_as_given w) (fst (send_email w subject body recipient)).
Proof.
  unfold send_email, bind, try_except, with_exit, outside, emit, ret.
  split_answers; repeat constructor.
Qed.

Lemma deliver_names (code user_email : string) :
  Forall (names_as_given w) (fst (deliver w code user_email)).
Proof.
  unfold deliver, bind.
  pose proof (create_github_pr_names "generated_code.py" code
                "Add AI-generated feature") as Hp.
  destruct (create_github_pr w _ _ _) as [t [[link|]|e]]; cbn in Hp |- *;
    rewrite ?app_nil_r; try exact Hp.
  destruct (truthy link); cbn; rewrite ?app_nil_r; try exact Hp.
  pose proof (send_email_names "✅ Your AI Task is Done"
                ("🎉 Task complete! PR: " ++ link) user_email) as Hn.
  destruct (send_email w _ _ _) as [t' [[]|e']]; cbn in Hn |- *;
    rewrite ?app_nil_r; apply Forall_app; now split.
Qed.

Lemma run_agents_names (user_task user_email : string) :
  Forall (names_as_given w) (fst (run_agents w user_task user_email)).
Proof.
  rewrite run_agents_unfold.
  pose proof (agent_turns_names user_task) as H0.
  destruct (agent_turns w user_task) as [t0 [m|e]]; cbn [fst] in H0;
    [|exact H0].
  destruct (str_in "def " (content m)); [|exact H0].
  pose proof (execute_names (content m)) as H1.
  destruct (execute_code_in_docker w (content m)) as [t1 [output|e]];
    cbn [fst] in H1 |- *; [|apply Forall_app; now split].
  destruct (review_gate output); [|apply Forall_app; now split].
  pose proof (deliver_names (content m) user_email) as H2.
  destruct (deliver w (content m) user_email) as [t2 r2].
  cbn [fst] in H2 |- *. rewrite !Forall_app. now repeat split.
Qed.

End Names.

(** C9, as the specification states it, fails: two runs for different
    tasks, against different answers of the backend, ask the hosting
    service for the same branch. *)
Lemma two_runs_ask_for_the_same_branch :
  fst (run_agents happy_world "add two numbers" "ann@example.org") <>
  fst (run_agents second_world "multiply two numbers" "bob@example.org") /\
  branch_refs (fst (run_agents happy_world "add two numbers"
                      "ann@example.org"))
    = ["refs/heads/auto/feature-agent"] /\
  branch_refs (fst (run_agents second_world "multiply two numbers"
                      "bob@example.org"))
    = ["refs/heads/auto/feature-agent"].
Proof.
  split; [|split; reflexivity].
  vm_compute. intro H. discriminate H.
Qed.

(** C9, amended: the program chooses no per-run names.  The directory it
    mounts is the one the temporary-directory call made up, the container
    is started without a name, and every ref that a run asks the hosting
    service to create is the constant refs/heads/auto/feature-agent, in
    every run. *)
Theorem branch_name_is_a_constant (w : World)
  (user_task user_email : string) :
  let t := fst (run_agents w user_task user_email) in
  Forall (fun ref => ref = "refs/heads/auto/feature-agent") (branch_refs t) /\
  Forall (fun d => w_mkdtemp w = Ok d) (mounted_dirs t).
Proof.
  cbv zeta. split.
  - apply (names_branch_refs w), run_agents_names.
  - apply names_mounted_dirs, run_agents_names.
Qed.

(** ** Exceptions *)

Section Escapes.

Variable w : World.

(** Once the Docker client is obtained, whatever fails inside the
    [try] block comes back as a text. *)
Lemma execute_returns (code : string) :
  w_from_env w = Ok tt ->
  snd (execute_code_in_docker w code)
  = Ok (stdout_stderr_combined (execution_result w code)).
Proof.
  intro H.
  unfold execute_code_in_docker, execution_result, bind, try_except,
    outside, emit, ret.
  rewrite H. destruct (sandbox_try w code) as [t [out|e]]; reflexivity.
Qed.

(** Line 55 stands before the [try]: a failure to obtain the Docker
    client leaves [execute_code_in_docker]. *)
Lemma execute_raises (code e : string) :
  w_from_env w = Raise e ->
  snd (execute_code_in_docker w code) = Raise e.
Proof.
  intro H. unfold execute_code_in_docker, bind, outside, emit.
  now rewrite H.
Qed.

Lemma run_agents_raises_iff (user_task user_email e : string) :
  w_from_env w = Ok tt ->
  (snd (run_agents w user_task user_email) = Raise e <->
   snd (agent_turns w user_task) = Raise e).
Proof.
  intro H. rewrite run_agents_unfold.
  destruct (agent_turns w user_task) as [t0 [m|e0]];
    [|cbn; split; intro X; injection X as ->; reflexivity].
  destruct (str_in "def " (content m)); [|cbn; split; discriminate].
  pose proof (execute_returns (content m) H) as H1.
  destruct (execute_code_in_docker w (content m)) as [t1 r1].
  cbn [snd] in H1. subst r1.
  destruct (review_gate _); [|cbn; split; discriminate].
  destruct (deliver_returns w (content m) user_email) as [o H2].
  destruct (deliver w (content m) user_email) as [t2 r2].
  cbn [snd] in H2 |- *. subst r2. split; discriminate.
Qed.

End Escapes.

(** C5, as the specification states it, fails: the steps of the
    orchestrator are awaited outside any [try], so a failure of the
    completion backend leaves [run_agents] as an exception, after a
    single call. *)
Lemma agent_turn_failure_escapes_run :
  run_agents backend_down_world "add two numbers" "me@example.org"
  = ([Called (orchestrator_step 0 (InText "User wants: add two numbers"))
        false],
     Raise "RateLimitError").
Proof. reflexivity. Qed.

(** C5, amended: failures of publish and of notify are caught where they
    occur ([create_github_pr] and [send_email] always return), and once
    the Docker client is obtained so are the failures of the sandbox
    steps, which come back as the returned text; a failure of an
    agent-turn call is not caught, and with the Docker client obtained it
    is the only exception that leaves [run_agents]. *)
Theorem only_agent_turn_failures_escape (w : World)
  (user_task user_email : string) :
  w_from_env w = Ok tt ->
  (forall e, snd (run_agents w user_task user_email) = Raise e <->
             snd (agent_turns w user_task) = Raise e) /\
  (forall code, snd (execute_code_in_docker w code)
                = Ok (stdout_stderr_combined (execution_result w code))) /\
  (forall file_path content commit_msg,
     exists link, snd (create_github_pr w file_path content commit_msg)
                  = Ok link) /\
  (forall subject body recipient,
     snd (send_email w subject body recipient) = Ok tt).
Proof.
  intro H. repeat split.
  - now apply run_agents_raises_iff.
  - now apply run_agents_raises_iff.
  - intro code. now apply execute_returns.
  - intros. apply create_github_pr_returns.
  - intros. apply send_email_returns.
Qed.

(** Witness of C5: with the daemon reachable and the backend down, the
    exception of the first step is the one that leaves the run. *)
Lemma only_agent_turn_failures_escape_witness :
  w_from_env backend_down_world = Ok tt /\
  snd (run_agents backend_down_world "add two numbers" "me@example.org")
  = Raise "RateLimitError".
Proof.
  split; [reflexivity|].
  apply (only_agent_turn_failures_escape backend_down_world
           "add two numbers" "me@example.org" eq_refl).
  reflexivity.
Defined.

(** The other way out of [run_agents]: the Docker client cannot be
    obtained. *)
Lemma docker_client_failure_escapes_run :
  snd (run_agents no_daemon_world "add two numbers" "me@example.org")
  = Raise "DockerException: no daemon".
Proof. reflexivity. Qed.

(** ** The sandbox *)

(** C4 at a failing input: the container runs, reading its logs fails.
    The handler turns the failure into a text and the call returns, the
    temporary directory is gone, and the container, never removed, is
    still running. *)
Theorem container_left_running_when_logs_fail :
  let run := execute_code_in_docker logs_fail_world add_source in
  snd run = Ok "Execution failed: 500 Server Error: cannot read logs" /\
  container_after (fst run) = Running /\
  count (fun e => match e with
                  | Called (container_remove _) _ => true
                  | _ => false
                  end) (fst run) = 0 /\
  tempdirs_left 0 (fst run) = 0.
Proof. cbv zeta. repeat split; reflexivity. Qed.

(** On the path without failures the container is removed and the
    directory deleted. *)
Lemma container_removed_on_success :
  let run := execute_code_in_docker happy_world add_source in
  snd run = Ok "SAFE" /\
  container_after (fst run) = Removed /\
  tempdirs_left 0 (fst run) = 0.
Proof. cbv zeta. repeat split; reflexivity. Qed.

(** Whatever happens inside the [with] block, the directory it created
    is cleaned up once, provided the clean-up itself answers. *)
Lemma tempdir_cleaned_on_every_path (w : World) (code : string) :
  (forall d, w_cleanup w d = Ok tt) ->
  tempdirs_left 0 (fst (execute_code_in_docker w code)) = 0.
Proof.
  intro H.
  unfold execute_code_in_docker, sandbox_try, process_window,
    bind, try_except, with_exit, outside, emit, ret.
  destruct (w_from_env w); [|reflexivity].
  destruct (w_mkdtemp w) as [tempdir|]; [|reflexivity].
  rewrite (H tempdir). split_answers; reflexivity.
Qed.

Section NoWait.

Variable w : World.

(** Whether the sandboxed process has ended when its logs are read
    changes nothing in what the executor returns. *)
Lemma execute_ignores_process_end (code : string) (b : bool) :
  snd (execute_code_in_docker (set_exited_before_logs b w) code)
  = snd (execute_code_in_docker w code).
Proof.
  unfold execute_code_in_docker, sandbox_try, process_window,
    bind, try_except, with_exit, outside, emit, ret.
  cbn [set_exited_before_logs w_from_env w_mkdtemp w_write w_run w_logs
       w_remove w_decode w_cleanup w_exited_before_logs].
  destruct b; split_answers; reflexivity.
Qed.

(** The logs are read in the state the process happens to be in: never
    after a forced stop, and from a running process unless it ended on
    its own. *)
Lemma logs_read_without_waiting (code : string) :
  Forall (fun s => s = if w_exited_before_logs w then Exited else Running)
         (states_at_logs Absent (fst (execute_code_in_docker w code))).
Proof.
  unfold execute_code_in_docker, sandbox_try, process_window,
    bind, try_except, with_exit, outside, emit, ret.
  destruct (w_exited_before_logs w);
    split_answers; repeat constructor.
Qed.

(** The [try] block fails exactly when one of its outside calls raised;
    there is no other source of failure, such as a time limit. *)
Lemma sandbox_fails_only_by_exception (code : string) :
  succeeded (execution_result w code)
  = (failed_calls (fst (sandbox_try w code)) =? 0)%nat.
Proof.
  unfold execution_result, sandbox_try, process_window,
    bind, try_except, with_exit, outside, emit, ret.
  split_answers; reflexivity.
Qed.

End NoWait.

(** C3, as the specification states it, fails: the sandboxed script
    never ends; the executor reads the logs while the process runs,
    returns what was printed so far as a successful execution, and
    reports no timeout. *)
Lemma hanging_process_is_reported_as_success :
  let run := execute_code_in_docker hanging_world add_source in
  let r := execution_result hanging_world add_source in
  w_exited_before_logs hanging_world = false /\
  states_at_logs Absent (fst run) = [Running] /\
  snd run = Ok "started" /\
  succeeded r = true /\
  failure_reason r = None.
Proof. cbv zeta. repeat split; reflexivity. Qed.

(** What [execute_code_in_docker] does once the container is started:
    the next call is the reading of the logs, and if that returns, the
    next one is the forced removal. *)
Lemma execute_after_start (w : World) (code tempdir : string) :
  w_from_env w = Ok tt ->
  w_mkdtemp w = Ok tempdir ->
  w_write w (os_path_join tempdir "script.py") code = Ok tt ->
  w_run w tempdir = Ok tt ->
  exists rest,
    fst (execute_code_in_docker w code)
    = (start_entries code tempdir
       ++ (if w_exited_before_logs w then [ProcessExited] else [])
       ++ Called (container_logs true true) (is_ok (w_logs w)) :: rest)%list /\
    states_at_logs Absent (fst (execute_code_in_docker w code))
    = [if w_exited_before_logs w then Exited else Running] /\
    (is_ok (w_logs w) = true ->
     exists rest',
       rest = Called (container_remove true) (is_ok (w_remove w)) :: rest').
Proof.
  intros F T W R.
  unfold execute_code_in_docker, sandbox_try, process_window, start_entries,
    bind, try_except, with_exit, outside, emit, ret.
  rewrite F, T, W, R.
  destruct (w_exited_before_logs w); destruct (w_logs w) as [raw|];
    [destruct (w_remove w); [destruct (w_decode w raw)|] | |
     destruct (w_remove w); [destruct (w_decode w raw)|] | ];
    destruct (w_cleanup w tempdir); cbn;
    eexists; (split; [reflexivity|]); (split; [reflexivity|]);
    intro H; try discriminate H; eexists; reflexivity.
Qed.

(** A failure reported by the executor is the message of a call that
    raised. *)
Lemma failure_reason_is_raised (w : World) (code e : string) :
  failure_reason (execution_result w code) = Some e ->
  raised_in_try w code e.
Proof.
  unfold execution_result, sandbox_try, process_window, raised_in_try,
    bind, with_exit, outside, emit, ret.
  destruct (w_mkdtemp w) as [d|e0] eqn:T; cbn.
  2:{ intro H; injection H as <-. now left. }
  intro H. right. exists d. split; [reflexivity|]. revert H.
  destruct (w_write w _ code) as [[]|] eqn:W;
    destruct (w_run w d) as [[]|] eqn:R;
    destruct (w_exited_before_logs w);
    destruct (w_logs w) as [raw|] eqn:L;
    try destruct (w_remove w) as [[]|] eqn:V;
    try destruct (w_decode w raw) eqn:D;
    destruct (w_cleanup w d) as [[]|] eqn:C; cbn;
    intro H; try discriminate H; injection H as <-; eauto 10.
Qed.

(** When every call answers, the execution is a success whether the
    process has ended or not. *)
Lemma answered_calls_mean_success (w : World)
  (code tempdir raw output : string) :
  w_from_env w = Ok tt ->
  w_mkdtemp w = Ok tempdir ->
  w_write w (os_path_join tempdir "script.py") code = Ok tt ->
  w_run w tempdir = Ok tt ->
  w_logs w = Ok raw ->
  w_remove w = Ok tt ->
  w_decode w raw = Ok output ->
  w_cleanup w tempdir = Ok tt ->
  snd (execute_code_in_docker w code) = Ok output /\
  succeeded (execution_result w code) = true /\
  failure_reason (execution_result w code) = None.
Proof.
  intros F T W R L V D C.
  unfold execute_code_in_docker, execution_result, sandbox_try,
    process_window, bind, try_except, with_exit, outside, emit, ret.
  rewrite F, T, W, R, L, V, D, C.
  destruct (w_exited_before_logs w); cbn; repeat split; reflexivity.
Qed.

(** C3, amended: the executor has no time limit and makes no timeout
    report of its own.  Once the Docker client, the directory and the
    script are there and the container is started, detached, the very
    next call is the one reading of the logs, made without waiting: the
    process is still running then unless it ended on its own, and it has
    not been forcibly stopped; if the reading returns, the next call is
    the forced removal of the container.  Whether the process has ended
    changes nothing in what the executor returns, and when every call
    answers the execution is a success with the decoded logs.  The
    execution counts as failed exactly when one of the calls inside the
    [try] block raised, and the reason reported is then the message of
    a call that raised (a timeout only if a call raised one).  The call
    is over after at most ten trace entries. *)
Theorem executor_reads_logs_without_waiting (w : World) (code : string) :
  Forall (fun s => s = if w_exited_before_logs w then Exited else Running)
         (states_at_logs Absent (fst (execute_code_in_docker w code))) /\
  (forall b, snd (execute_code_in_docker (set_exited_before_logs b w) code)
             = snd (execute_code_in_docker w code)) /\
  succeeded (execution_result w code)
  = (failed_calls (fst (sandbox_try w code)) =? 0)%nat /\
  length (fst (execute_code_in_docker w code)) <= 10 /\
  (forall tempdir,
     w_from_env w = Ok tt ->
     w_mkdtemp w = Ok tempdir ->
     w_write w (os_path_join tempdir "script.py") code = Ok tt ->
     w_run w tempdir = Ok tt ->
     exists rest,
       fst (execute_code_in_docker w code)
       = (start_entries code tempdir
          ++ (if w_exited_before_logs w then [ProcessExited] else [])
          ++ Called (container_logs true true) (is_ok (w_logs w))
             :: rest)%list /\
       states_at_logs Absent (fst (execute_code_in_docker w code))
       = [if w_exited_before_logs w then Exited else Running] /\
       (is_ok (w_logs w) = true ->
        exists rest',
          rest = Called (container_remove true) (is_ok (w_remove w))
                 :: rest')) /\
  (forall tempdir raw output,
     w_from_env w = Ok tt ->
     w_mkdtemp w = Ok tempdir ->
     w_write w (os_path_join tempdir "script.py") code = Ok tt ->
     w_run w tempdir = Ok tt ->
     w_logs w = Ok raw ->
     w_remove w = Ok tt ->
     w_decode w raw = Ok output ->
     w_cleanup w tempdir = Ok tt ->
     snd (execute_code_in_docker w code) = Ok output /\
     succeeded (execution_result w code) = true /\
     failure_reason (execution_result w code) = None) /\
  (forall e, failure_reason (execution_result w code) = Some e ->
             raised_in_try w code e).
Proof.
  split; [apply logs_read_without_waiting|].
  split; [intro b; apply execute_ignores_process_end|].
  split; [apply sandbox_fails_only_by_exception|].
  split; [apply execute_length|].
  split; [intro tempdir; apply execute_after_start|].
  split; [intros tempdir raw output; apply answered_calls_mean_success|].
  intro e. apply failure_reason_is_raised.
Qed.

(** Witness of C3: the script that never ends.  Every call answers; the
    logs are read once, from the running process, right after the start,
    the forced removal follows, and the execution is a success. *)
Lemma executor_reads_logs_without_waiting_witness :
  (exists rest',
     fst (execute_code_in_docker hanging_world add_source)
     = (start_entries add_source "/tmp/tmpk3v9x1"
        ++ Called (container_logs true true) true
           :: Called (container_remove true) true :: rest')%list) /\
  states_at_logs Absent (fst (execute_code_in_docker hanging_world add_source))
  = [Running] /\
  snd (execute_code_in_docker hanging_world add_source) = Ok "started" /\
  failure_reason (execution_result hanging_world add_source) = None.
Proof.
  destruct (executor_reads_logs_without_waiting hanging_world add_source)
    as (_ & _ & _ & _ & Hstart & Hall & _).
  destruct (Hstart "/tmp/tmpk3v9x1" eq_refl eq_refl eq_refl eq_refl)
    as (rest & Ht & Hs & Hr).
  destruct (Hr eq_refl) as [rest' ->].
  destruct (Hall "/tmp/tmpk3v9x1" "started" "started"
              eq_refl eq_refl eq_refl eq_refl eq_refl eq_refl eq_refl
              eq_refl) as (Ho & _ & Hf).
  split; [now exists rest'|]. split; [exact Hs|]. split; [exact Ho | exact Hf].
Defined.

(** ** The gate *)

(** C1, as the specification states it, fails: the container cannot be
    started, so the execution did not succeed, but the daemon's message
    holds the marker; the gate as coded proceeds where the gate as
    specified aborts, and the run goes on to deliver. *)
Lemma failed_execution_passes_the_gate :
  let r := execution_result failed_start_world add_source in
  succeeded r = false /\
  snd (execute_code_in_docker failed_start_world add_source)
  = Ok (stdout_stderr_combined r) /\
  stdout_stderr_combined r
  = "Execution failed: 409 Conflict: daemon is in SAFE mode" /\
  review_gate (stdout_stderr_combined r) = PROCEED /\
  spec_decide r = ABORT /\
  snd (run_agents failed_start_world "add two numbers" "me@example.org")
  = Ok (Delivered "https://github.com/yourusername/yourrepo/pull/7").
Proof. cbv zeta. repeat split; reflexivity. Qed.

(** C1, amended: the gate reads only the text that the executor
    returned.  With the Docker client obtained the executor returns a
    text on every path; the gate proceeds exactly when "SAFE" occurs in
    that text as a case-sensitive substring; on an execution that
    succeeded this is the specified decision; on one that failed the
    text is "Execution failed: " followed by the exception's message,
    and the gate decides as it would on that message alone. *)
Theorem gate_reads_only_the_returned_text (w : World) (code : string) :
  w_from_env w = Ok tt ->
  let r := execution_result w code in
  snd (execute_code_in_docker w code) = Ok (stdout_stderr_combined r) /\
  (review_gate (stdout_stderr_combined r) = PROCEED <->
   exists a b, stdout_stderr_combined r = a ++ "SAFE" ++ b) /\
  (succeeded r = true ->
   review_gate (stdout_stderr_combined r) = spec_decide r) /\
  (succeeded r = false ->
   exists e, failure_reason r = Some e /\
             stdout_stderr_combined r = "Execution failed: " ++ e /\
             review_gate (stdout_stderr_combined r) = review_gate e).
Proof.
  intros H r. split; [now apply execute_returns|].
  split; [apply review_gate_spec|].
  subst r. unfold execution_result, spec_decide, review_gate.
  destruct (sandbox_try w code) as [t [out|e]]; cbn [snd succeeded
    stdout_stderr_combined failure_reason]; split; try discriminate.
  - intros _. rewrite andb_true_r. now destruct (str_in "SAFE" out).
  - intros _. exists e. split; [reflexivity|]. split; [reflexivity|].
    now rewrite str_in_failure_text.
Qed.

(** Witness of C1: the daemon is reachable and the container cannot be
    started. *)
Lemma gate_reads_only_the_returned_text_witness :
  w_from_env failed_start_world = Ok tt /\
  snd (execute_code_in_docker failed_start_world add_source)
  = Ok (stdout_stderr_combined
          (execution_result failed_start_world add_source)).
Proof.
  split; [reflexivity|].
  apply (gate_reads_only_the_returned_text failed_start_world add_source
           eq_refl).
Defined.

(** ** The extraction *)

(** C2, as the specification states it, fails: no Writer turn of the
    transcript holds a function definition, yet the run does not end
    NoArtifact: the closing turn, the Planner's, holds "def ", and its
    text is executed in the sandbox and delivered. *)
Lemma text_of_a_non_writer_turn_is_executed :
  let run := run_agents planner_quotes_world "add two numbers"
                        "me@example.org" in
  spec_extract (transcript planner_quotes_world (fst run)) = None /\
  invocations Sandbox (fst run) = 1 /\
  invocations Publish (fst run) = 1 /\
  snd run = Ok (Delivered "https://github.com/yourusername/yourrepo/pull/7").
Proof. cbv zeta. repeat split; reflexivity. Qed.

(** The converse failure: the Writer turn holds a function definition,
    the closing turn does not, and the run ends NoArtifact. *)
Lemma code_of_the_writer_turn_is_ignored :
  let run := run_agents writer_then_chatter_world "add two numbers"
                        "me@example.org" in
  spec_extract (transcript writer_then_chatter_world (fst run))
  = Some (mkTurn Writer add_source) /\
  invocations Sandbox (fst run) = 0 /\
  snd run = Ok NoArtifact.
Proof. cbv zeta. repeat split; reflexivity. Qed.

Lemma execute_head (w : World) (code : string) :
  exists t, fst (execute_code_in_docker w code)
            = Enter_execute_code_in_docker code :: t.
Proof.
  unfold execute_code_in_docker, sandbox_try, process_window,
    bind, try_except, with_exit, outside, emit, ret.
  split_answers; eexists; reflexivity.
Qed.

(** C2, amended: after the agent turns the coordinator looks at one
    message only, the one the last step returned, which is the last turn
    of the transcript whatever its role.  If its text holds "def ", that
    text is executed in the sandbox, once; if not, the run ends
    NoArtifact and neither the sandbox nor publish nor notify is
    entered. *)
Theorem artifact_is_the_last_message (w : World)
  (user_task user_email : string) (t0 : trace) (m : Turn) :
  agent_turns w user_task = (t0, Ok m) ->
  (forall d, last (transcript w t0) d = m) /\
  (str_in "def " (content m) = true ->
   (exists t1, fst (run_agents w user_task user_email)
               = (t0 ++ Enter_execute_code_in_docker (content m) :: t1)%list) /\
   invocations Sandbox (fst (run_agents w user_task user_email)) = 1) /\
  (str_in "def " (content m) = false ->
   run_agents w user_task user_email = (t0, Ok NoArtifact) /\
   invocations Sandbox t0 = 0 /\
   invocations Publish t0 = 0 /\
   invocations Notify t0 = 0).
Proof.
  intro A. split; [intro d; now apply (agent_turns_last w user_task)|].
  pose proof (agent_turns_steps w user_task t0 (Ok m) A) as (_ & _ & Hst).
  split; intro D.
  - rewrite run_agents_unfold, A, D.
    pose proof (execute_invocations w (content m) Sandbox) as H1.
    destruct (execute_head w (content m)) as [t1 Hh].
    destruct (execute_code_in_docker w (content m)) as [t1' [output|e]].
    2:{ cbn [fst] in *. subst t1'. split; [now exists t1|].
        rewrite invocations_app, (Hst Sandbox). exact H1. }
    cbn [fst] in H1, Hh. subst t1'.
    destruct (review_gate output).
    + pose proof (deliver_invocations w (content m) user_email Sandbox) as H2.
      destruct (deliver w (content m) user_email) as [t2 r2].
      cbn [fst] in H2 |- *. split.
      * exists (t1 ++ t2)%list. reflexivity.
      * rewrite !invocations_app, (Hst Sandbox), H1. lia.
    + cbn [fst]. split; [now exists t1|].
      rewrite invocations_app, (Hst Sandbox). exact H1.
  - rewrite run_agents_unfold, A, D.
    split; [reflexivity|]. now rewrite !Hst.
Qed.

(** Witness of C2: the Writer wrote code and the closing turn has none;
    and the plain run, whose closing turn holds the code. *)
Lemma artifact_is_the_last_message_witness :
  run_agents writer_then_chatter_world "add two numbers" "me@example.org"
  = (fst (agent_turns writer_then_chatter_world "add two numbers"),
     Ok NoArtifact) /\
  invocations Sandbox
    (fst (run_agents happy_world "add two numbers" "me@example.org")) = 1.
Proof.
  split.
  - apply (artifact_is_the_last_message writer_then_chatter_world
             "add two numbers" "me@example.org" _ _ eq_refl).
    reflexivity.
  - apply (artifact_is_the_last_message happy_world
             "add two numbers" "me@example.org" _ _ eq_refl).
    reflexivity.
Defined.

(** ** Further properties of the helpers *)

(** X1, [send_email]: the mail session is opened once; login and the
    closing quit are attempted exactly when the connection was made, the
    message is handed over exactly when connection and login both
    succeeded; and whatever the server answers, the function returns. *)
Theorem send_email_session_discipline (w : World)
  (subject body recipient : string) :
  let t := fst (send_email w subject body recipient) in
  count (is_smtp_op OpConnect) t = 1 /\
  count (is_smtp_op OpLogin) t = (if is_ok (w_connect w) then 1 else 0) /\
  count (is_smtp_op OpSend) t
  = (if is_ok (w_connect w) && is_ok (w_login w) then 1 else 0) /\
  count (is_smtp_op OpQuit) t = (if is_ok (w_connect w) then 1 else 0) /\
  snd (send_email w subject body recipient) = Ok tt.
Proof.
  cbv zeta.
  unfold send_email, bind, try_except, with_exit, outside, emit, ret.
  destruct (w_connect w); [|cbn; repeat split; reflexivity].
  destruct (w_login w); cbn.
  - destruct (w_send w subject body recipient) as [[]|];
      destruct (w_quit w); cbn; repeat split; reflexivity.
  - destruct (w_quit w); cbn; repeat split; reflexivity.
Qed.

(** X2, [execute_code_in_docker]: the temporary directory is cleaned up
    once if it was created and never otherwise, on every path through the
    function; at most one directory is created. *)
Theorem tempdir_cleanup_matches_creation (w : World) (code : string) :
  let t := fst (execute_code_in_docker w code) in
  count is_cleanup_call t = count is_tempdir_created t /\
  count is_tempdir_created t <= 1.
Proof.
  cbv zeta.
  unfold execute_code_in_docker, sandbox_try, process_window,
    bind, try_except, with_exit, outside, emit, ret.
  split_answers; split; (reflexivity || (cbv; lia)).
Qed.

(** X3, [execute_code_in_docker]: at most one container is started, and
    a container that was started is removed by the time the function
    returns exactly when reading its logs and removing it both
    returned. *)
Theorem started_container_removed_iff (w : World) (code : string) :
  let t := fst (execute_code_in_docker w code) in
  container_after t <> Absent ->
  count is_container_start t = 1 /\
  (container_after t = Removed <->
   is_ok (w_logs w) = true /\ is_ok (w_remove w) = true).
Proof.
  cbv zeta.
  unfold execute_code_in_docker, sandbox_try, process_window,
    bind, try_except, with_exit, outside, emit, ret.
  split_answers; intro H; try (now elim H);
    (split; [reflexivity|]); split;
    try discriminate; try (intros [? ?]; discriminate); auto.
Qed.

(** Witness of X3: the container runs and its logs cannot be read. *)
Lemma started_container_removed_iff_witness :
  container_after (fst (execute_code_in_docker logs_fail_world add_source))
    <> Absent /\
  count is_container_start
    (fst (execute_code_in_docker logs_fail_world add_source)) = 1.
Proof.
  assert (H : container_after
                (fst (execute_code_in_docker logs_fail_world add_source))
              <> Absent) by (vm_compute; discriminate).
  split; [exact H|].
  apply (started_container_removed_iff logs_fail_world add_source H).
Defined.

(** X4, [execute_code_in_docker]: an exception of the directory's
    clean-up replaces whatever the block produced: with the Docker client
    obtained and the directory created, if the clean-up raises, the
    function returns the failure text of the clean-up, also when the
    script ran and its output was read. *)
Theorem cleanup_failure_replaces_the_output (w : World)
  (code tempdir e : string) :
  w_from_env w = Ok tt ->
  w_mkdtemp w = Ok tempdir ->
  w_cleanup w tempdir = Raise e ->
  snd (execute_code_in_docker w code) = Ok ("Execution failed: " ++ e).
Proof.
  intros F T C.
  unfold execute_code_in_docker, sandbox_try, process_window,
    bind, try_except, with_exit, outside, emit, ret.
  rewrite F, T, C. split_answers; reflexivity.
Qed.

(** Witness of X4: the script printed the marker, the directory cannot be
    removed. *)
Lemma cleanup_failure_replaces_the_output_witness :
  w_logs cleanup_fails_world = Ok "SAFE" /\
  snd (execute_code_in_docker cleanup_fails_world add_source)
  = Ok "Execution failed: PermissionError: /tmp/tmpk3v9x1".
Proof.
  split; [reflexivity|].
  apply (cleanup_failure_replaces_the_output cleanup_fails_world add_source
           "/tmp/tmpk3v9x1" "PermissionError: /tmp/tmpk3v9x1"
           eq_refl eq_refl eq_refl).
Defined.

(** X5, [execute_code_in_docker]: when every call answers, the function
    returns the decoded logs unchanged, the script written is the given
    code at script.py inside the new directory, the container is removed
    and no directory is left. *)
Theorem execute_returns_the_decoded_logs (w : World)
  (code tempdir raw output : string) :
  w_from_env w = Ok tt ->
  w_mkdtemp w = Ok tempdir ->
  w_write w (os_path_join tempdir "script.py") code = Ok tt ->
  w_run w tempdir = Ok tt ->
  w_logs w = Ok raw ->
  w_remove w = Ok tt ->
  w_decode w raw = Ok output ->
  w_cleanup w tempdir = Ok tt ->
  let run := execute_code_in_docker w code in
  snd run = Ok output /\
  In (Called (write_script (os_path_join tempdir "script.py") code) true)
     (fst run) /\
  container_after (fst run) = Removed /\
  tempdirs_left 0 (fst run) = 0 /\
  failed_calls (fst run) = 0.
Proof.
  intros F T W R L V D C.
  unfold execute_code_in_docker, sandbox_try, process_window,
    bind, try_except, with_exit, outside, emit, ret.
  rewrite F, T, W, R, L, V, D, C.
  destruct (w_exited_before_logs w); cbn;
    (repeat split; try reflexivity); auto 10.
Qed.

(** Witness of X5: the plain world. *)
Lemma execute_returns_the_decoded_logs_witness :
  snd (execute_code_in_docker happy_world add_source) = Ok "SAFE" /\
  container_after (fst (execute_code_in_docker happy_world add_source))
  = Removed.
Proof.
  destruct (execute_returns_the_decoded_logs happy_world add_source
              "/tmp/tmpk3v9x1" "SAFE" "SAFE"
              eq_refl eq_refl eq_refl eq_refl eq_refl eq_refl eq_refl eq_refl)
    as (R & _ & K & _).
  split; [exact R | exact K].
Defined.

(** X6, [create_github_pr]: a commit refused after the branch was made
    leaves the branch: the function returns [None] having created the
    ref, asks for no pull request, and sends nothing to undo the ref. *)
Theorem refused_commit_leaves_the_branch (w : World)
  (file_path content commit_msg sha e : string) :
  w_Github w = Ok tt ->
  w_get_repo w GITHUB_REPO = Ok tt ->
  w_get_branch w "main" = Ok sha ->
  w_create_git_ref w "refs/heads/auto/feature-agent" sha = Ok tt ->
  w_create_file w file_path commit_msg content "auto/feature-agent"
  = Raise e ->
  create_github_pr w file_path content commit_msg
  = ([Enter_create_github_pr file_path content commit_msg;
      Called (Github (GITHUB_TOKEN w)) true;
      Called (get_repo GITHUB_REPO) true;
      Called (get_branch "main") true;
      Called (create_git_ref "refs/heads/auto/feature-agent" sha) true;
      Called (create_file file_path commit_msg content "auto/feature-agent")
             false],
     Ok None).
Proof.
  intros G R B C F.
  unfold create_github_pr, bind, try_except, outside, emit, ret.
  rewrite G, R, B. cbn. rewrite C, F. reflexivity.
Qed.

(** Witness of X6. *)
Lemma refused_commit_leaves_the_branch_witness :
  snd (create_github_pr commit_refused_world "generated_code.py" add_source
         "Add AI-generated feature") = Ok None /\
  branch_refs (fst (create_github_pr commit_refused_world
                      "generated_code.py" add_source
                      "Add AI-generated feature"))
  = ["refs/heads/auto/feature-agent"].
Proof.
  rewrite (refused_commit_leaves_the_branch commit_refused_world
             "generated_code.py" add_source "Add AI-generated feature"
             "9fceb02" "403 Forbidden"
             eq_refl eq_refl eq_refl eq_refl eq_refl).
  split; reflexivity.
Defined.

(** X7, line 152: a message counts as code exactly when "def " occurs
    somewhere in its text, wherever and in whatever surroundings; what is
    taken is then the whole text of the message, never a part of it and
    never the empty text. *)
Theorem extract_code_takes_the_whole_message (m : Turn) (code : string) :
  (extract_code m = Some code <->
   code = content m /\ exists a b, content m = a ++ "def " ++ b) /\
  extract_code m <> Some "".
Proof.
  unfold extract_code. split.
  - rewrite <- str_in_spec.
    destruct (str_in "def " (content m)); split.
    + intro H; injection H as <-. now split.
    + intros [-> _]. reflexivity.
    + discriminate.
    + intros [_ H]. discriminate.
  - destruct (str_in "def " (content m)) eqn:D; [|discriminate].
    intro H; injection H as H. rewrite H in D. discriminate D.
Qed.

(** ** Further properties of the run *)

Section Everywhere.

Variable w : World.

(** The trace of the agent turns holds steps of the orchestrator only. *)
Lemma for_range_only_steps (n i : nat) (m : Turn) :
  Forall (fun e => stage_of e = Some AgentTurn)
         (fst (for_range n i (loop_body w) m)).
Proof.
  revert i m; induction n as [|n IH]; intros i m; [constructor|].
  cbn [for_range]. unfold bind, loop_body at 1, step, outside.
  destruct (w_step w i (InMessage m)) as [m'|e].
  - specialize (IH (S i) m').
    destruct (for_range n (S i) _ m') as [t' r']. cbn in IH |- *.
    constructor; [reflexivity | exact IH].
  - cbn. repeat constructor.
Qed.

Lemma agent_turns_only_steps (user_task : string) :
  Forall (fun e => stage_of e = Some AgentTurn)
         (fst (agent_turns w user_task)).
Proof.
  unfold agent_turns, bind, step at 1, outside.
  destruct (w_step w 0 _) as [m|e].
  - pose proof (for_range_only_steps 5 1 m) as H.
    destruct (for_range 5 1 _ m) as [t' r']. cbn in H |- *.
    constructor; [reflexivity | exact H].
  - cbn. repeat constructor.
Qed.

(** What holds of every entry of the parts holds of every entry of the
    run. *)
Lemma run_agents_Forall (P : event -> Prop) (user_task user_email : string) :
  (forall e, stage_of e = Some AgentTurn -> P e) ->
  (forall t0 m, agent_turns w user_task = (t0, Ok m) ->
     Forall P (fst (execute_code_in_docker w (content m))) /\
     Forall P (fst (create_github_pr w "generated_code.py" (content m)
                      "Add AI-generated feature")) /\
     forall link, Forall P (fst (send_email w "✅ Your AI Task is Done"
                                   ("🎉 Task complete! PR: " ++ link)
                                   user_email))) ->
  Forall P (fst (run_agents w user_task user_email)).
Proof.
  intros Hs Hparts. rewrite run_agents_unfold.
  pose proof (agent_turns_only_steps user_task) as H0.
  apply (Forall_impl P Hs) in H0.
  destruct (agent_turns w user_task) as [t0 [m|e]] eqn:A; cbn [fst] in H0;
    [|exact H0].
  destruct (str_in "def " (content m)); [|exact H0].
  destruct (Hparts t0 m eq_refl) as (H1 & H2 & H3).
  destruct (execute_code_in_docker w (content m)) as [t1 [output|e]];
    cbn [fst] in H1 |- *; [|apply Forall_app; now split].
  destruct (review_gate output); [|apply Forall_app; now split].
  unfold deliver, bind.
  destruct (create_github_pr w _ _ _) as [t2 [[link|]|e]]; cbn [fst] in H2.
  - destruct (truthy link).
    + specialize (H3 link).
      destruct (send_email w _ _ _) as [t3 [[]|e']]; cbn in H3 |- *;
        rewrite ?app_nil_r, !Forall_app; now repeat split.
    + cbn. rewrite ?app_nil_r, !Forall_app. now repeat split.
  - cbn. rewrite ?app_nil_r, !Forall_app. now repeat split.
  - cbn. rewrite !Forall_app. now repeat split.
Qed.

Lemma execute_contained (code : string) :
  Forall contained (fst (execute_code_in_docker w code)).
Proof.
  unfold execute_code_in_docker, sandbox_try, process_window,
    bind, try_except, with_exit, outside, emit, ret.
  split_answers; repeat constructor.
Qed.

Lemma create_github_pr_contained (file_path content commit_msg : string) :
  Forall contained (fst (create_github_pr w file_path content commit_msg)).
Proof.
  unfold create_github_pr, bind, try_except, outside, emit, ret.
  split_answers; repeat constructor.
Qed.

Lemma send_email_contained (subject body recipient : string) :
  Forall contained (fst (send_email w subject body recipient)).
Proof.
  unfold send_email, bind, try_except, with_exit, outside, emit, ret.
  split_answers; repeat constructor.
Qed.

Lemma execute_hosting (code : string) :
  Forall (hosting_as_coded w) (fst (execute_code_in_docker w code)).
Proof.
  unfold execute_code_in_docker, sandbox_try, process_window,
    bind, try_except, with_exit, outside, emit, ret.
  split_answers; repeat constructor.
Qed.

Lemma create_github_pr_hosting (file_path content commit_msg : string) :
  Forall (hosting_as_coded w)
         (fst (create_github_pr w file_path content commit_msg)).
Proof.
  unfold create_github_pr, bind, try_except, outside, emit, ret.
  destruct (w_get_branch w "main") as [sha|] eqn:B;
    split_answers; repeat constructor; exact B.
Qed.

Lemma send_email_hosting (subject body recipient : string) :
  Forall (hosting_as_coded w) (fst (send_email w subject body recipient)).
Proof.
  unfold send_email, bind, try_except, with_exit, outside, emit, ret.
  split_answers; repeat constructor.
Qed.

Lemma execute_carries (code : string) :
  Forall (carries code) (fst (execute_code_in_docker w code)).
Proof.
  unfold execute_code_in_docker, sandbox_try, process_window,
    bind, try_except, with_exit, outside, emit, ret.
  split_answers; repeat constructor.
Qed.

Lemma create_github_pr_carries (code : string) :
  Forall (carries code)
         (fst (create_github_pr w "generated_code.py" code
                 "Add AI-generated feature")).
Proof.
  unfold create_github_pr, bind, try_except, outside, emit, ret.
  split_answers; repeat constructor.
Qed.

Lemma send_email_carries (code subject body recipient : string) :
  Forall (carries code) (fst (send_email w subject body recipient)).
Proof.
  unfold send_email, bind, try_except, with_exit, outside, emit, ret.
  split_answers; repeat constructor.
Qed.

Lemma run_agents_container_starts (user_task user_email : string) :
  count is_container_start (fst (run_agents w user_task user_email)) <= 1.
Proof.
  rewrite run_agents_unfold.
  pose proof (agent_turns_only_steps user_task) as H0.
  assert (Z : forall t, Forall (fun e => stage_of e = Some AgentTurn) t ->
                        count is_container_start t = 0).
  { induction 1 as [|e t He _ IH]; [reflexivity|].
    change (count is_container_start (e :: t))
      with (count is_container_start ([e] ++ t)%list).
    rewrite count_app, IH.
    destruct e as [c ok| | | |]; try discriminate.
    destruct c; try discriminate. reflexivity. }
  apply Z in H0.
  assert (E : forall code,
             count is_container_start (fst (execute_code_in_docker w code))
             <= 1).
  { intro code.
    unfold execute_code_in_docker, sandbox_try, process_window,
      bind, try_except, with_exit, outside, emit, ret.
    split_answers; cbv; lia. }
  assert (P : forall code,
             count is_container_start
               (fst (create_github_pr w "generated_code.py" code
                       "Add AI-generated feature")) = 0).
  { intro code.
    unfold create_github_pr, bind, try_except, outside, emit, ret.
    split_answers; reflexivity. }
  assert (N : forall s b r,
             count is_container_start (fst (send_email w s b r)) = 0).
  { intros s b r.
    unfold send_email, bind, try_except, with_exit, outside, emit, ret.
    split_answers; reflexivity. }
  destruct (agent_turns w user_task) as [t0 [m|e]]; cbn [fst] in H0 |- *;
    [|lia].
  destruct (str_in "def " (content m)); [|cbn [fst]; lia].
  specialize (E (content m)). specialize (P (content m)).
  destruct (execute_code_in_docker w (content m)) as [t1 [output|e]];
    cbn [fst] in E |- *; [|rewrite count_app; lia].
  destruct (review_gate output); [|cbn [fst]; rewrite count_app; lia].
  unfold deliver, bind.
  destruct (create_github_pr w _ _ _) as [t2 [[link|]|e]]; cbn [fst] in P.
  - destruct (truthy link).
    + specialize (N "✅ Your AI Task is Done"
                    ("🎉 Task complete! PR: " ++ link) user_email).
      destruct (send_email w _ _ _) as [t3 [[]|e']]; cbn [fst ret] in N |- *;
        rewrite ?app_nil_r, !count_app; lia.
    + cbn [fst ret]. rewrite ?app_nil_r, !count_app. lia.
  - cbn [fst ret]. rewrite ?app_nil_r, !count_app. lia.
  - cbn [fst ret]. rewrite !count_app. lia.
Qed.

End Everywhere.

(** X8, [run_agents]: a run starts at most one container, and whatever
    the agents wrote, every container it starts runs python:3.10 on
    script.py, detached, with the network disabled, 128m of memory, no
    new privileges, and the directory mounted read-only at /code. *)
Theorem every_container_is_contained (w : World)
  (user_task user_email : string) :
  let t := fst (run_agents w user_task user_email) in
  Forall contained t /\ count is_container_start t <= 1.
Proof.
  cbv zeta. split; [|apply run_agents_container_starts].
  apply run_agents_Forall.
  - intros [c ok| | | |]; try discriminate.
    destruct c; try discriminate. intros _. exact I.
  - intros t0 m _. split; [apply execute_contained|].
    split; [apply create_github_pr_contained|].
    intro link. apply send_email_contained.
Qed.

(** X9, [run_agents]: the hosting requests of a run are those of lines
    83-94: the new ref is cut from the commit that main pointed to when
    it was asked, the file is committed to auto/feature-agent and never
    to main, and the pull request asks to merge auto/feature-agent into
    main. *)
Theorem commits_never_go_to_main (w : World)
  (user_task user_email : string) :
  Forall (hosting_as_coded w) (fst (run_agents w user_task user_email)).
Proof.
  apply run_agents_Forall.
  - intros [c ok| | | |]; try discriminate.
    destruct c; try discriminate. intros _. exact I.
  - intros t0 m _. split; [apply execute_hosting|].
    split; [apply create_github_pr_hosting|].
    intro link. apply send_email_hosting.
Qed.

(** X10, [run_agents]: what is published is what was run.  When the
    agent turns return a message, the text handed to the sandbox, the
    text written to script.py and the text committed as
    generated_code.py are all the whole content of that message. *)
Theorem published_text_is_the_sandboxed_text (w : World)
  (user_task user_email : string) (t0 : trace) (m : Turn) :
  agent_turns w user_task = (t0, Ok m) ->
  Forall (carries (content m)) (fst (run_agents w user_task user_email)).
Proof.
  intro A. apply run_agents_Forall.
  - intros [c ok| | | |]; try discriminate.
    destruct c; try discriminate. intros _. exact I.
  - intros t0' m' A'. rewrite A in A'. injection A' as <- <-.
    split; [apply execute_carries|].
    split; [apply create_github_pr_carries|].
    intro link. apply send_email_carries.
Qed.

(** Witness of X10: the plain run. *)
Lemma published_text_is_the_sandboxed_text_witness :
  Forall (carries add_source)
         (fst (run_agents happy_world "add two numbers" "me@example.org")).
Proof.
  apply (published_text_is_the_sandboxed_text happy_world
           "add two numbers" "me@example.org" _
           (mkTurn Planner add_source) eq_refl).
Defined.

(** ** The order of the stages *)

Lemma stages_app (a b : trace) :
  stages (a ++ b)%list = (stages a ++ stages b)%list.
Proof.
  induction a as [|e a IH]; [reflexivity|].
  cbn [app stages]. destruct (stage_of e); [cbn; now rewrite IH | exact IH].
Qed.

Lemma stages_of_steps (t : trace) :
  Forall (fun e => stage_of e = Some AgentTurn) t ->
  stages t = repeat AgentTurn (length t).
Proof.
  induction 1 as [|e t He _ IH]; [reflexivity|].
  cbn [stages length repeat]. now rewrite He, IH.
Qed.

Lemma steps_prefix_of_pipeline (n : nat) :
  n <= 6 -> repeat AgentTurn n = firstn n pipeline_order.
Proof.
  intro H. do 7 (destruct n as [|n]; [reflexivity|]). lia.
Qed.

Section Order.

Variable w : World.

Lemma execute_stages (code : string) :
  stages (fst (execute_code_in_docker w code)) = [Sandbox].
Proof.
  unfold execute_code_in_docker, sandbox_try, process_window,
    bind, try_except, with_exit, outside, emit, ret.
  split_answers; reflexivity.
Qed.

Lemma create_github_pr_stages (file_path content commit_msg : string) :
  stages (fst (create_github_pr w file_path content commit_msg)) = [Publish].
Proof.
  unfold create_github_pr, bind, try_except, outside, emit, ret.
  split_answers; reflexivity.
Qed.

Lemma send_email_stages (subject body recipient : string) :
  stages (fst (send_email w subject body recipient)) = [Notify].
Proof.
  unfold send_email, bind, try_except, with_exit, outside, emit, ret.
  split_answers; reflexivity.
Qed.

Lemma send_email_enters (subject body recipient : string) :
  exists t, fst (send_email w subject body recipient)
            = Enter_send_email subject body recipient :: t.
Proof.
  unfold send_email, bind, try_except, with_exit, outside, emit, ret.
  split_answers; eexists; reflexivity.
Qed.

(** The steps of the loop form a chain. *)
Lemma for_range_chain (n i : nat) (m : Turn) :
  chain w i (InMessage m) (fst (for_range n i (loop_body w) m)).
Proof.
  revert i m; induction n as [|n IH]; intros i m; [constructor|].
  cbn [for_range]. unfold bind, loop_body at 1, step, outside.
  destruct (w_step w i (InMessage m)) as [m'|e] eqn:E.
  - specialize (IH (S i) m').
    destruct (for_range n (S i) _ m') as [t' r']. cbn in IH |- *.
    now apply chain_answer with m'.
  - cbn. now apply chain_raise with e.
Qed.

End Order.

(** X11, [run_agents]: the stages of a run come in one order and no
    stage is gone back to: the stages entered are a beginning of six
    agent turns, the sandbox, publish, notify. *)
Theorem stages_follow_the_pipeline (w : World)
  (user_task user_email : string) :
  exists k, k <= 9 /\
            stages (fst (run_agents w user_task user_email))
            = firstn k pipeline_order.
Proof.
  rewrite run_agents_unfold.
  pose proof (agent_turns_only_steps w user_task) as H0.
  apply stages_of_steps in H0.
  destruct (agent_turns w user_task) as [t0 r0] eqn:A.
  apply agent_turns_steps in A as (Hle & Hok & _). cbn [fst] in H0.
  destruct r0 as [m|e].
  2:{ exists (length t0). split; [lia|]. cbn [fst].
      rewrite H0. now apply steps_prefix_of_pipeline. }
  specialize (Hok eq_refl). rewrite Hok in H0.
  destruct (str_in "def " (content m)).
  2:{ exists 6. split; [lia|]. exact H0. }
  pose proof (execute_stages w (content m)) as H1.
  destruct (execute_code_in_docker w (content m)) as [t1 [output|e]];
    cbn [fst] in H1 |- *.
  2:{ exists 7. split; [lia|]. now rewrite stages_app, H0, H1. }
  destruct (review_gate output).
  2:{ exists 7. split; [lia|]. cbn [fst]. now rewrite stages_app, H0, H1. }
  unfold deliver, bind.
  pose proof (create_github_pr_stages w "generated_code.py" (content m)
                "Add AI-generated feature") as H2.
  destruct (create_github_pr w _ _ _) as [t2 [[link|]|e]]; cbn [fst] in H2.
  - destruct (truthy link).
    + pose proof (send_email_stages w "✅ Your AI Task is Done"
                    ("🎉 Task complete! PR: " ++ link) user_email) as H3.
      exists 9. split; [lia|].
      destruct (send_email w _ _ _) as [t3 [[]|e']]; cbn [fst ret] in H3 |- *;
        now rewrite ?app_nil_r, !stages_app, H0, H1, H2, H3.
    + exists 8. split; [lia|]. cbn [fst ret].
      now rewrite ?app_nil_r, !stages_app, H0, H1, H2.
  - exists 8. split; [lia|]. cbn [fst ret].
    now rewrite ?app_nil_r, !stages_app, H0, H1, H2.
  - exists 8. split; [lia|]. cbn [fst ret].
    now rewrite !stages_app, H0, H1, H2.
Qed.

(** X12, [run_agents]: how a run ends does not depend on the mail: with
    another mail server, answering or not, and another address to
    notify, the run ends the same way, Delivered included. *)
Theorem outcome_ignores_the_mail (w : World)
  (user_task email email' : string) (connect login quit : result unit)
  (send : string -> string -> string -> result unit) :
  snd (run_agents (set_smtp connect login send quit w) user_task email')
  = snd (run_agents w user_task email).
Proof.
  rewrite !run_agents_unfold.
  change (agent_turns (set_smtp connect login send quit w) user_task)
    with (agent_turns w user_task).
  destruct (agent_turns w user_task) as [t0 [m|e]]; [|reflexivity].
  destruct (str_in "def " (content m)); [|reflexivity].
  change (execute_code_in_docker (set_smtp connect login send quit w)
            (content m))
    with (execute_code_in_docker w (content m)).
  destruct (execute_code_in_docker w (content m)) as [t1 [output|e]];
    [|reflexivity].
  destruct (review_gate output); [|reflexivity].
  unfold deliver, bind.
  change (create_github_pr (set_smtp connect login send quit w)
            "generated_code.py" (content m) "Add AI-generated feature")
    with (create_github_pr w "generated_code.py" (content m)
            "Add AI-generated feature").
  destruct (create_github_pr w _ _ _) as [t2 [[link|]|e]]; try reflexivity.
  destruct (truthy link); [|reflexivity].
  pose proof (send_email_returns (set_smtp connect login send quit w)
                "✅ Your AI Task is Done"
                ("🎉 Task complete! PR: " ++ link) email') as S'.
  pose proof (send_email_returns w "✅ Your AI Task is Done"
                ("🎉 Task complete! PR: " ++ link) email) as S.
  destruct (send_email (set_smtp connect login send quit w) _ _ _)
    as [t3' r3'].
  destruct (send_email w _ _ _) as [t3 r3].
  cbn [snd] in S, S'. subst r3 r3'. reflexivity.
Qed.

(** X13, [run_agents]: a run that ends Delivered with a link has opened
    the pull request of that link: its trace holds the six hosting
    requests of [create_github_pr], each answered, the last being the
    request for the pull request, which the service answered with that
    link; the link is not empty; and right after that request the run
    entered notify, exactly once, for the requester's address, with the
    link in the body of the mail. *)
Theorem delivered_means_pull_request_and_mail (w : World)
  (user_task user_email link : string) :
  snd (run_agents w user_task user_email) = Ok (Delivered link) ->
  truthy link = true /\
  w_create_pull w "auto/feature-agent" "main" = Ok link /\
  In (Enter_send_email "✅ Your AI Task is Done"
        ("🎉 Task complete! PR: " ++ link) user_email)
     (fst (run_agents w user_task user_email)) /\
  invocations Notify (fst (run_agents w user_task user_email)) = 1 /\
  exists code sha before after,
    hosting_answers_all w "generated_code.py" code
                        "Add AI-generated feature" link /\
    w_get_branch w "main" = Ok sha /\
    fst (run_agents w user_task user_email)
    = (before
       ++ publish_entries w "generated_code.py" code
                          "Add AI-generated feature" sha
       ++ Enter_send_email "✅ Your AI Task is Done"
            ("🎉 Task complete! PR: " ++ link) user_email
          :: after)%list.
Proof.
  rewrite run_agents_unfold.
  destruct (agent_turns w user_task) as [t0 [m|e]] eqn:A; [|discriminate].
  apply agent_turns_steps in A as (_ & _ & Hst).
  destruct (str_in "def " (content m)); [|discriminate].
  pose proof (execute_invocations w (content m) Notify) as H1.
  destruct (execute_code_in_docker w (content m)) as [t1 [output|e]];
    [|discriminate].
  destruct (review_gate output); [|discriminate].
  unfold deliver, bind.
  pose proof (create_github_pr_invocations w "generated_code.py"
                (content m) "Add AI-generated feature" Notify) as H2.
  destruct (create_github_pr w "generated_code.py" (content m)
              "Add AI-generated feature") as [t2 [[url|]|e]] eqn:E;
    [|discriminate|discriminate].
  pose proof (create_github_pr_some_inv w "generated_code.py" (content m)
                "Add AI-generated feature" url) as Hall.
  rewrite E in Hall. specialize (Hall eq_refl).
  pose proof Hall as (G & R & sha & B & C & F & U).
  rewrite (create_github_pr_all_answered w "generated_code.py" (content m)
             "Add AI-generated feature" sha url G R B C F U) in E.
  injection E as <-.
  destruct (truthy url) eqn:T; [|discriminate].
  pose proof (send_email_returns w "✅ Your AI Task is Done"
                ("🎉 Task complete! PR: " ++ url) user_email) as S.
  pose proof (send_email_invocations w "✅ Your AI Task is Done"
                ("🎉 Task complete! PR: " ++ url) user_email Notify) as H3.
  destruct (send_email_enters w "✅ Your AI Task is Done"
              ("🎉 Task complete! PR: " ++ url) user_email) as [t3' Hh].
  destruct (send_email w _ _ _) as [t3 r3].
  cbn [fst snd] in S, H1, H2, H3, Hh. subst r3 t3.
  cbn [fst snd ret]. intro H; injection H as <-.
  split; [exact T|]. split; [exact U|]. split; [|split].
  - rewrite !in_app_iff. right. right. right. left. left. reflexivity.
  - rewrite ?app_nil_r, !invocations_app, (Hst Notify), H1, H2, H3.
    reflexivity.
  - exists (content m), sha, (t0 ++ t1)%list, t3'.
    split; [exact Hall|]. split; [exact B|].
    now rewrite app_nil_r, <- !app_assoc.
Qed.

(** Witness of X13: the plain run holds the answered request for the
    pull request and one entry into notify. *)
Lemma delivered_means_pull_request_and_mail_witness :
  w_create_pull happy_world "auto/feature-agent" "main"
  = Ok "https://github.com/yourusername/yourrepo/pull/7" /\
  invocations Notify
    (fst (run_agents happy_world "add two numbers" "me@example.org")) = 1 /\
  In (Called (create_pull "🤖 AI Agent: New Code Contribution"
                "This PR was created by the multi-agent AI system."
                "auto/feature-agent" "main") true)
     (fst (run_agents happy_world "add two numbers" "me@example.org")).
Proof.
  destruct (delivered_means_pull_request_and_mail happy_world
              "add two numbers" "me@example.org"
              "https://github.com/yourusername/yourrepo/pull/7" eq_refl)
    as (_ & U & _ & N & code & sha & before & after & _ & _ & Ht).
  split; [exact U|]. split; [exact N|].
  rewrite Ht, !in_app_iff. right. left.
  unfold publish_entries. cbn [In]. auto 10.
Defined.

(** X14, lines 144-149: the steps of the orchestrator form one chain.
    Step 0 is handed the text "User wants: " followed by the task, each
    later step is handed the message that the step before it returned,
    and after a step that raises no step is made. *)
Theorem agent_steps_form_a_chain (w : World) (user_task : string) :
  chain w 0 (InText ("User wants: " ++ user_task))
        (fst (agent_turns w user_task)).
Proof.
  unfold agent_turns, bind, step at 1, outside.
  destruct (w_step w 0 _) as [m|e] eqn:E.
  - pose proof (for_range_chain w 5 1 m) as H.
    destruct (for_range 5 1 _ m) as [t' r']. cbn [fst] in H |- *.
    now apply chain_answer with m.
  - cbn [fst]. now apply chain_raise with e.
Qed.

(** X15, [run_agents]: when the Docker client cannot be obtained, the
    exception of [docker.from_env] leaves the run: after the agent turns
    the run enters the sandbox, makes that one call and raises; it
    creates no directory, starts no container, and neither publishes nor
    notifies. *)
Theorem docker_client_failure_ends_the_run (w : World)
  (user_task user_email e : string) (t0 : trace) (m : Turn) :
  agent_turns w user_task = (t0, Ok m) ->
  str_in "def " (content m) = true ->
  w_from_env w = Raise e ->
  run_agents w user_task user_email
  = ((t0 ++ [Enter_execute_code_in_docker (content m);
             Called docker_from_env false])%list,
     Raise e).
Proof.
  intros A D F. rewrite run_agents_unfold, A, D.
  unfold execute_code_in_docker, bind, outside, emit. rewrite F.
  reflexivity.
Qed.

(** Witness of X15: no daemon. *)
Lemma docker_client_failure_ends_the_run_witness :
  snd (run_agents no_daemon_world "add two numbers" "me@example.org")
  = Raise "DockerException: no daemon" /\
  invocations Publish
    (fst (run_agents no_daemon_world "add two numbers" "me@example.org")) = 0.
Proof.
  rewrite (docker_client_failure_ends_the_run no_daemon_world
             "add two numbers" "me@example.org"
             "DockerException: no daemon" _ (mkTurn Planner add_source)
             eq_refl eq_refl eq_refl).
  split; reflexivity.
Defined.

(** X16, [run_agents]: a sandbox step that fails with a message that
    does not hold "SAFE" ends the run Aborted: the failure text is read
    by the gate like any output, and nothing is published or notified. *)
Theorem sandbox_failure_aborts_the_run (w : World)
  (user_task user_email e : string) (t0 : trace) (m : Turn) :
  agent_turns w user_task = (t0, Ok m) ->
  str_in "def " (content m) = true ->
  w_from_env w = Ok tt ->
  snd (sandbox_try w (content m)) = Raise e ->
  str_in "SAFE" e = false ->
  snd (run_agents w user_task user_email) = Ok Aborted /\
  invocations Publish (fst (run_agents w user_task user_email)) = 0 /\
  invocations Notify (fst (run_agents w user_task user_email)) = 0.
Proof.
  intros A D F X S. rewrite run_agents_unfold, A, D.
  pose proof (execute_invocations w (content m)) as H1.
  pose proof (execute_returns w (content m) F) as R.
  unfold execution_result in R. rewrite X in R.
  cbn [stdout_stderr_combined] in R.
  destruct (execute_code_in_docker w (content m)) as [t1 r1].
  cbn [fst snd] in H1, R. subst r1.
  unfold review_gate. rewrite str_in_failure_text, S. cbn [negb fst snd].
  apply agent_turns_steps in A as (_ & _ & Hst).
  split; [reflexivity|].
  rewrite !invocations_app, (Hst Publish), (Hst Notify),
    (H1 Publish), (H1 Notify). split; reflexivity.
Qed.

(** Witness of X16: the image cannot be found. *)
Lemma sandbox_failure_aborts_the_run_witness :
  snd (run_agents no_image_world "add two numbers" "me@example.org")
  = Ok Aborted.
Proof.
  apply (sandbox_failure_aborts_the_run no_image_world
           "add two numbers" "me@example.org"
           "404 Not Found: python:3.10" _ (mkTurn Planner add_source)
           eq_refl eq_refl eq_refl eq_refl eq_refl).
Defined.

(** X17, [run_agents]: how a run ends tells how far it went.  A run that
    ends NoArtifact made the six agent turns and nothing else; one that
    ends Aborted also entered the sandbox; one that ends DeliveryFailed
    also entered publish and did not enter notify; one that ends
    Delivered entered all of them. *)
Theorem outcome_tells_the_stages_reached (w : World)
  (user_task user_email : string) (o : RunOutcome) :
  snd (run_agents w user_task user_email) = Ok o ->
  stages (fst (run_agents w user_task user_email))
  = firstn (match o with
            | NoArtifact => 6
            | Aborted => 7
            | DeliveryFailed => 8
            | Delivered _ => 9
            end) pipeline_order.
Proof.
  rewrite run_agents_unfold.
  pose proof (agent_turns_only_steps w user_task) as H0.
  apply stages_of_steps in H0.
  destruct (agent_turns w user_task) as [t0 [m|e]] eqn:A; [|discriminate].
  apply agent_turns_steps in A as (_ & Hok & _). cbn [fst] in H0.
  specialize (Hok eq_refl). rewrite Hok in H0.
  destruct (str_in "def " (content m)).
  2:{ intro H; injection H as <-. exact H0. }
  pose proof (execute_stages w (content m)) as H1.
  destruct (execute_code_in_docker w (content m)) as [t1 [output|e]];
    cbn [fst] in H1 |- *; [|discriminate].
  destruct (review_gate output).
  2:{ intro H; injection H as <-. cbn [fst].
      now rewrite stages_app, H0, H1. }
  unfold deliver, bind.
  pose proof (create_github_pr_stages w "generated_code.py" (content m)
                "Add AI-generated feature") as H2.
  destruct (create_github_pr w _ _ _) as [t2 [[link|]|e]]; cbn [fst] in H2.
  - destruct (truthy link).
    + pose proof (send_email_stages w "✅ Your AI Task is Done"
                    ("🎉 Task complete! PR: " ++ link) user_email) as H3.
      destruct (send_email w _ _ _) as [t3 [[]|e']];
        cbn [fst snd ret] in H3 |- *; [|discriminate].
      intro H; injection H as <-.
      now rewrite ?app_nil_r, !stages_app, H0, H1, H2, H3.
    + cbn [fst snd ret]. intro H; injection H as <-.
      now rewrite ?app_nil_r, !stages_app, H0, H1, H2.
  - cbn [fst snd ret]. intro H; injection H as <-.
    now rewrite ?app_nil_r, !stages_app, H0, H1, H2.
  - discriminate.
Qed.

(** Witness of X17: the branch exists already, the run ends
    DeliveryFailed past publish and short of notify. *)
Lemma outcome_tells_the_stages_reached_witness :
  stages (fst (run_agents branch_exists_world "add two numbers"
                 "me@example.org"))
  = [AgentTurn; AgentTurn; AgentTurn; AgentTurn; AgentTurn; AgentTurn;
     Sandbox; Publish].
Proof.
  apply (outcome_tells_the_stages_reached branch_exists_world
           "add two numbers" "me@example.org" DeliveryFailed eq_refl).
Defined.
